(** * penn_chime.models: the SIR projection engine

    A shallow embedding of [src/penn_chime/models.py].

    Numbers.  Python and numpy floats are modelled by exact rationals
    ([Q], compared with [==]); rounding and overflow are outside the
    model.  A float that may be NaN (a pandas cell) is an [option Q],
    [None] standing for NaN.  The one place where the code can also
    produce an infinity, the effective doubling time, uses [npfloat].

    Exceptions.  Code that can raise returns a [result]; the
    constructors of [exn] are the Python exception classes involved. *)

From Stdlib Require Import ZArith QArith Qround Qfield Lqa Lia.
From Stdlib Require Import String Bool List.
Import ListNotations.

Local Open Scope Q_scope.

(** ** Exceptions *)

Inductive exn : Set :=
| ZeroDivisionError
| AssertionError
| KeyError
| IndexError
| ValueError
| TypeError
| AttributeError.

Inductive result (A : Type) : Type :=
| Ok (a : A)
| Raise (e : exn).

Arguments Ok {A} a.
Arguments Raise {A} e.

Definition bind {A B : Type} (c : result A) (k : A -> result B) : result B :=
  match c with
  | Ok a => k a
  | Raise e => Raise e
  end.

Notation "x <- c ;; k" := (bind c (fun x => k))
  (at level 61, c at next level, right associativity).
Notation "' pat <- c ;; k" := (bind c (fun x => match x with pat => k end))
  (at level 61, pat pattern, c at next level, right associativity).

Definition is_ok {A : Type} (c : result A) : bool :=
  match c with Ok _ => true | Raise _ => false end.

(** [a / b] on floats: raises [ZeroDivisionError] when [b] is zero.  (When
    an operand is a numpy scalar the same division yields inf or NaN with
    a warning; neither is a number, and the model stops there too.) *)
Definition fdiv (a b : Q) : result Q :=
  if Qeq_bool b 0 then Raise ZeroDivisionError else Ok (a / b).

(** ** The SIR stepper and the trajectory generator *)

(** [sir]: one time step.  The three raw updates are the locals [s_n],
    [i_n], [r_n] of the source; the clamps to zero are commented out there
    and absent here. *)
Definition sir_s_n (s i r beta gamma : Q) : Q := (- beta * s * i) + s.
Definition sir_i_n (s i r beta gamma : Q) : Q := (beta * s * i - gamma * i) + i.
Definition sir_r_n (s i r beta gamma : Q) : Q := gamma * i + r.

Definition sir (s i r beta gamma n : Q) : result (Q * Q * Q) :=
  let s_n := sir_s_n s i r beta gamma in
  let i_n := sir_i_n s i r beta gamma in
  let r_n := sir_r_n s i r beta gamma in
  scale <- fdiv n (s_n + i_n + r_n) ;;
  Ok (s_n * scale, i_n * scale, r_n * scale).

(** A row of the raw trajectory: [(day, susceptible, infected, recovered)]. *)
Record RawRow : Type := mkRawRow {
  row_day : Z;
  row_susceptible : Q;
  row_infected : Q;
  row_recovered : Q
}.

(** The [for _ in range(n_days)] loop of [gen_sir] followed by its last
    [yield]; [k] is the number of iterations left. *)
Fixpoint gen_sir_loop (k : nat) (d : Z) (s i r beta gamma n : Q)
  : result (list RawRow) :=
  match k with
  | O => Ok [mkRawRow d s i r]
  | S k' =>
      '(s', i', r') <- sir s i r beta gamma n ;;
      rest <- gen_sir_loop k' (d + 1)%Z s' i' r' beta gamma n ;;
      Ok (mkRawRow d s i r :: rest)
  end.

(** [range(n_days)] is empty for a negative [n_days]. *)
Definition gen_sir (s i r beta gamma : Q) (n_days i_day : Z)
  : result (list RawRow) :=
  let n := s + i + r in
  gen_sir_loop (Z.to_nat n_days) i_day s i r beta gamma n.

(** [sim_sir_df] collects the generator into a frame whose index is
    0, 1, ...: the list position. *)
Definition sim_sir_df (s i r beta gamma : Q) (n_days i_day : Z)
  : result (list RawRow) :=
  gen_sir s i r beta gamma n_days i_day.

(** ** pandas and numpy primitives *)

(** A float cell that may be NaN. *)
Definition cell : Type := option Q.

Definition cell_sub (a b : cell) : cell :=
  match a, b with
  | Some x, Some y => Some (x - y)
  | _, _ => None
  end.

(** [left - right] for two Series on a default integer index: the result
    lives on the union of the two indexes, and a label missing on either
    side gives NaN. *)
Definition series_sub (left right : list cell) : list cell :=
  map (fun k =>
         match nth_error left k, nth_error right k with
         | Some a, Some b => cell_sub a b
         | _, _ => None
         end)
      (seq 0 (Nat.max (length left) (length right))).

(** [series.iloc[:-k]].  For [k = 0] the slice is [[:0]], which is empty. *)
Definition iloc_to_minus (k : nat) (l : list cell) : list cell :=
  match k with
  | O => []
  | _ => firstn (length l - k) l
  end.

(** [series.shift(k)] for [k >= 0]: same index, the values moved [k] rows
    down, NaN in the first [k] rows. *)
Definition shift (k : nat) (l : list cell) : list cell :=
  firstn (length l) (repeat None k ++ l).

Definition fillna (v : Q) (l : list cell) : list cell :=
  map (fun c => match c with Some x => Some x | None => Some v end) l.

(** [series.cumsum()] with the default [skipna=True]: a NaN row stays NaN
    and does not enter the running total. *)
Fixpoint cumsum_from (acc : Q) (l : list cell) : list cell :=
  match l with
  | [] => []
  | None :: t => None :: cumsum_from acc t
  | Some x :: t => Some (acc + x) :: cumsum_from (acc + x) t
  end.

Definition cumsum (l : list cell) : list cell := cumsum_from 0 l.

Definition np_ceil (c : cell) : cell :=
  option_map (fun x => inject_Z (Qceiling x)) c.

(** [series.loc[label]] on the default index 0..len-1. *)
Definition loc {A : Type} (l : list A) (label : Z) : result A :=
  if (label <? 0)%Z then Raise KeyError
  else match nth_error l (Z.to_nat label) with
       | Some a => Ok a
       | None => Raise KeyError
       end.

(** [array[i]] on a numpy array: a negative index counts from the end. *)
Definition np_index {A : Type} (l : list A) (i : Z) : result A :=
  let j := if (i <? 0)%Z then (Z.of_nat (length l) + i)%Z else i in
  if (j <? 0)%Z then Raise IndexError
  else match nth_error l (Z.to_nat j) with
       | Some a => Ok a
       | None => Raise IndexError
       end.

(** The scan behind [Series.argmin]: [best] is the position and value of
    the smallest non-NaN cell seen so far, replaced only by a strictly
    smaller one; [k] is the position of the head of [l]. *)
Fixpoint argmin_scan (best : option (nat * Q)) (k : nat) (l : list cell)
  : option (nat * Q) :=
  match l with
  | [] => best
  | None :: t => argmin_scan best (S k) t
  | Some x :: t =>
      match best with
      | None => argmin_scan (Some (k, x)) (S k) t
      | Some (j, y) =>
          if Qlt_le_dec x y then argmin_scan (Some (k, x)) (S k) t
          else argmin_scan best (S k) t
      end
  end.

(** [Series.argmin()]: the position of the first minimum, NaN skipped;
    -1 when every cell is NaN; [ValueError] on an empty Series. *)
Definition argmin (l : list cell) : result Z :=
  match l with
  | [] => Raise ValueError
  | _ =>
      match argmin_scan None 0 l with
      | Some (j, _) => Ok (Z.of_nat j)
      | None => Ok (-1)%Z
      end
  end.

(** [np.linspace(start, stop, num)]. *)
Definition linspace (start stop : Q) (num : nat) : list Q :=
  let step := (stop - start) / (inject_Z (Z.of_nat num) - 1) in
  map (fun k => start + inject_Z (Z.of_nat k) * step) (seq 0 num).

(** A numpy float64 where infinities matter. *)
Inductive npfloat : Type :=
| Fin (q : Q)
| PosInf
| NegInf
| NaN.

(** What the surrounding platform supplies: the constant [EPSILON] of
    [penn_chime.constants], the float power [2.0 ** x] and the base-2
    logarithm of a positive number. *)
Class Platform : Type := {
  EPSILON : Q;
  pow2 : Q -> Q;
  log2 : Q -> Q
}.

(** ** Frames *)

(** A data frame with a [day] column, a [date] column (a day ordinal) and
    one float column per disposition, in insertion order. *)
Record Frame : Type := mkFrame {
  day : list Z;
  date : list Z;
  columns : list (string * list cell)
}.

Fixpoint lookup {A : Type} (key : string) (d : list (string * A)) : option A :=
  match d with
  | [] => None
  | (k, v) :: t => if String.eqb key k then Some v else lookup key t
  end.

(** [df[key]]. *)
Definition getitem (df : Frame) (key : string) : result (list cell) :=
  match lookup key (columns df) with
  | Some c => Ok c
  | None => Raise KeyError
  end.

(** [df.hospitalized]. *)
Definition getattr_hospitalized (df : Frame) : result (list cell) :=
  match lookup "hospitalized"%string (columns df) with
  | Some c => Ok c
  | None => Raise AttributeError
  end.

Fixpoint mapM {A B : Type} (f : A -> result B) (l : list A) : result (list B) :=
  match l with
  | [] => Ok []
  | a :: t =>
      b <- f a ;;
      bs <- mapM f t ;;
      Ok (b :: bs)
  end.

(** ** The disposition, admission and census pipeline *)

Definition build_dispositions_df
  (raw_df : list RawRow) (rates : list (string * Q))
  (market_share : Q) (current_date : Z) : Frame :=
  let patients := map (fun row => row_infected row + row_recovered row) raw_df in
  let day := map row_day raw_df in
  mkFrame day
          (map (fun d => (d + current_date)%Z) day)
          (map (fun '(key, rate) =>
                  (key, map (fun x => Some (x * rate * market_share)) patients))
               rates).

(** One float column of [dispositions_df.iloc[:-1, :] - dispositions_df.shift(1)]. *)
Definition admits_column (col : list cell) : list cell :=
  series_sub (iloc_to_minus 1 col) (shift 1 col).

(** The [day] and [date] columns of the difference are overwritten with
    those of [dispositions_df]. *)
Definition build_admits_df (dispositions_df : Frame) : Frame :=
  mkFrame (day dispositions_df)
          (date dispositions_df)
          (map (fun '(key, col) => (key, admits_column col))
               (columns dispositions_df)).

(** One float column of the census frame, for a length of stay [los] (a
    day count; negative values are outside the model). *)
Definition census_column (los : nat) (col : list cell) : list cell :=
  map np_ceil
      (series_sub (iloc_to_minus los (cumsum col))
                  (fillna 0 (shift los (cumsum col)))).

Definition build_census_df
  (admits_df : Frame) (lengths_of_stay : list (string * nat)) : result Frame :=
  cols <- mapM (fun '(key, los) =>
                  col <- getitem admits_df key ;;
                  Ok (key, census_column los col))
               lengths_of_stay ;;
  Ok (mkFrame (day admits_df) (date admits_df) cols).

(** [raw_df] with a calendar date next to each day. *)
Definition build_sim_sir_w_date_df (raw_df : list RawRow) (current_date : Z)
  : list (Z * RawRow) :=
  map (fun row => ((row_day row + current_date)%Z, row)) raw_df.

(** ** Rates and losses *)

Definition get_argmin_ds (census_df : Frame) (current_hospitalized : Q)
  : result Z :=
  hospitalized <- getattr_hospitalized census_df ;;
  let losses_df :=
    map (fun c => option_map (fun x => (x - current_hospitalized) ^ 2) c)
        hospitalized in
  argmin losses_df.

Definition get_beta (intrinsic_growth_rate gamma susceptible relative_contact_rate : Q)
  : result Q :=
  q <- fdiv (intrinsic_growth_rate + gamma) susceptible ;;
  Ok (q * (1 - relative_contact_rate)).

Definition get_growth_rate `{Platform} (doubling_time : option Q) : Q :=
  match doubling_time with
  | None => 0
  | Some dt => if Qeq_bool dt 0 then 0 else pow2 (1 / dt) - 1
  end.

(** Squared error: predicted vs. actual current hospitalized. *)
Definition get_loss (census_df : Frame) (current_hospitalized : Q) (n_days_since : Z)
  : result cell :=
  hospitalized <- getattr_hospitalized census_df ;;
  predicted <- loc hospitalized n_days_since ;;
  Ok (option_map (fun x => (current_hospitalized - x) ^ 2) predicted).

(** [np.log2]: NaN below zero and minus infinity at zero, with a warning
    and no exception. *)
Definition np_log2 `{Platform} (x : Q) : npfloat :=
  if Qlt_le_dec x 0 then NaN
  else if Qeq_bool x 0 then NegInf
  else Fin (log2 x).

(** [1.0 / v] for a numpy float [v]: numpy division does not raise. *)
Definition np_reciprocal (v : npfloat) : npfloat :=
  match v with
  | Fin q => if Qeq_bool q 0 then PosInf else Fin (1 / q)
  | PosInf => Fin 0
  | NegInf => Fin 0
  | NaN => NaN
  end.

(** [get_growth_rate] applied to a numpy float. *)
Definition get_growth_rate_np `{Platform} (doubling_time : npfloat) : npfloat :=
  match doubling_time with
  | Fin dt => Fin (get_growth_rate (Some dt))
  | PosInf => Fin (pow2 0 - 1)
  | NegInf => Fin (pow2 0 - 1)
  | NaN => NaN
  end.

(** ** Parameters and the model object *)

Module Disposition.
Record t : Type := mk {
  rate : Q;
  length_of_stay : nat
}.
End Disposition.

(** The fields of [penn_chime.parameters.Parameters] that the model reads.
    Dates are day ordinals; an optional field is [None] when absent. *)
Module Parameters.
Record t : Type := mk {
  population : Q;
  current_hospitalized : Q;
  market_share : Q;
  known_infected : option Q;
  current_date : Z;
  date_first_hospitalized : option Z;
  doubling_time : option Q;
  relative_contact_rate : Q;
  infectious_days : Q;
  n_days : Z;
  recovered : Q;
  hospitalized : Disposition.t;
  dispositions : list (string * Disposition.t)
}.

(** [p.doubling_time = v]. *)
Definition set_doubling_time (p : t) (v : option Q) : t :=
  mk (population p) (current_hospitalized p) (market_share p)
     (known_infected p) (current_date p) (date_first_hospitalized p)
     v
     (relative_contact_rate p) (infectious_days p) (n_days p)
     (recovered p) (hospitalized p) (dispositions p).
End Parameters.

(** What one call of [run_projection] stores on the model. *)
Module Projection.
Record t : Type := mk {
  raw_df : list RawRow;
  dispositions_df : Frame;
  admits_df : Frame;
  census_df : Frame;
  current_infected : Q
}.
End Projection.

(** The attributes of a constructed [SimSirModel].  [current_hospitalized]
    and [population] are only set in date-first-hospitalized mode. *)
Module SimSirModel.
Record t : Type := mk {
  n_days_since : option Z;
  rates : list (string * Q);
  lengths_of_stay : list (string * nat);
  susceptible : Q;
  infected : Q;
  recovered : Q;
  detection_probability : option Q;
  doubling_time_t : npfloat;
  beta : Q;
  gamma : Q;
  intrinsic_growth_rate : Q;
  r_t : Q;
  r_naught : Q;
  i_day : Z;
  current_hospitalized : option Q;
  population : option Q;
  projection : Projection.t;
  sim_sir_w_date_df : list (Z * RawRow);
  daily_growth_rate : Q;
  daily_growth_rate_t : npfloat
}.
End SimSirModel.

(** The local variables of [SimSirModel.__init__] when it reaches its
    [if] (line 100), together with [self.infected], which line 98 has set
    to a value of its own. *)
Module Locals.
Record t : Type := mk {
  n_days_since : option Z;
  rates : list (string * Q);
  lengths_of_stay : list (string * nat);
  infected : Q;
  susceptible : Q;
  detection_probability : option Q;
  intrinsic_growth_rate : Q;
  gamma : Q;
  beta : Q;
  r_t : Q;
  r_naught : Q;
  doubling_time_t : npfloat;
  self_infected : Q
}.
End Locals.

Section Model.
Context `{Platform}.

(** Lines 34-98 of [__init__]. *)
Definition derive (p : Parameters.t) : result Locals.t :=
  let n_days_since :=
    match Parameters.date_first_hospitalized p with
    | Some d => Some (Parameters.current_date p - d)%Z
    | None => None
    end in
  let rates :=
    map (fun '(key, d) => (key, Disposition.rate d)) (Parameters.dispositions p) in
  let lengths_of_stay :=
    map (fun '(key, d) => (key, Disposition.length_of_stay d))
        (Parameters.dispositions p) in
  x <- fdiv (Parameters.current_hospitalized p) (Parameters.market_share p) ;;
  infected <- fdiv x (Disposition.rate (Parameters.hospitalized p)) ;;
  let susceptible := Parameters.population p - infected in
  detection_probability <-
    (if Qlt_le_dec EPSILON infected then
       match Parameters.known_infected p with
       | Some k => q <- fdiv k infected ;; Ok (Some q)
       | None => Raise TypeError
       end
     else Ok None) ;;
  let intrinsic_growth_rate := get_growth_rate (Parameters.doubling_time p) in
  gamma <- fdiv 1 (Parameters.infectious_days p) ;;
  y <- fdiv (intrinsic_growth_rate + gamma) susceptible ;;
  let beta := y * (1 - Parameters.relative_contact_rate p) in
  z <- fdiv beta gamma ;;
  let r_t := z * susceptible in
  r_naught <- fdiv (intrinsic_growth_rate + gamma) gamma ;;
  let doubling_time_t := np_reciprocal (np_log2 (beta * susceptible - gamma + 1)) in
  w <- fdiv 1 (Disposition.rate (Parameters.hospitalized p)) ;;
  self_infected <- fdiv w (Parameters.market_share p) ;;
  Ok (Locals.mk n_days_since rates lengths_of_stay infected susceptible
                detection_probability intrinsic_growth_rate gamma beta
                r_t r_naught doubling_time_t self_infected).

(** [run_projection]: the attributes of [self] it reads are arguments. *)
Definition run_projection
  (rates : list (string * Q)) (lengths_of_stay : list (string * nat))
  (susceptible infected beta gamma : Q) (i_day : Z) (p : Parameters.t)
  : result Projection.t :=
  raw_df <- sim_sir_df susceptible infected (Parameters.recovered p)
                       beta gamma (Parameters.n_days p + i_day)%Z (- i_day)%Z ;;
  let dispositions_df :=
    build_dispositions_df raw_df rates (Parameters.market_share p)
                          (Parameters.current_date p) in
  let admits_df := build_admits_df dispositions_df in
  census_df <- build_census_df admits_df lengths_of_stay ;;
  current_infected <- loc (map row_infected raw_df) i_day ;;
  Ok (Projection.mk raw_df dispositions_df admits_df census_df current_infected).

(** Lines 148-151: the tail of [__init__], after either branch.  The
    arguments are the attributes of [self] and the (possibly updated)
    [p] at that point. *)
Definition finish
  (l : Locals.t) (p : Parameters.t)
  (n_days_since : option Z) (susceptible infected recovered : Q)
  (beta intrinsic_growth_rate r_t r_naught : Q) (doubling_time_t : npfloat)
  (i_day : Z) (current_hospitalized population : option Q)
  (proj : Projection.t) : SimSirModel.t :=
  SimSirModel.mk
    n_days_since (Locals.rates l) (Locals.lengths_of_stay l)
    susceptible infected recovered
    (Locals.detection_probability l) doubling_time_t
    beta (Locals.gamma l) intrinsic_growth_rate r_t r_naught
    i_day current_hospitalized population proj
    (build_sim_sir_w_date_df (Projection.raw_df proj) (Parameters.current_date p))
    (get_growth_rate (Parameters.doubling_time p))
    (get_growth_rate_np doubling_time_t).

(** Lines 101-115: the branch taken when only a doubling time is given. *)
Definition doubling_time_branch (l : Locals.t) (p : Parameters.t)
  : result (SimSirModel.t * Parameters.t) :=
  let i_day0 := 0%Z in
  self_beta <- fdiv (Locals.intrinsic_growth_rate l + Locals.gamma l)
                    (Locals.susceptible l) ;;
  proj1 <- run_projection (Locals.rates l) (Locals.lengths_of_stay l)
                          (Locals.susceptible l) (Locals.self_infected l)
                          self_beta (Locals.gamma l) i_day0 p ;;
  i_day <- get_argmin_ds (Projection.census_df proj1)
                         (Parameters.current_hospitalized p) ;;
  proj2 <- run_projection (Locals.rates l) (Locals.lengths_of_stay l)
                          (Locals.susceptible l) (Locals.self_infected l)
                          self_beta (Locals.gamma l) i_day p ;;
  infected <- np_index (map row_infected (Projection.raw_df proj2)) i_day ;;
  susceptible <- np_index (map row_susceptible (Projection.raw_df proj2)) i_day ;;
  recovered <- np_index (map row_recovered (Projection.raw_df proj2)) i_day ;;
  Ok (finish l p (Some i_day) susceptible infected recovered
             self_beta (Locals.intrinsic_growth_rate l)
             (Locals.r_t l) (Locals.r_naught l) (Locals.doubling_time_t l)
             i_day None None proj2,
      p).

(** [dts = np.linspace(1, 15, 29)]. *)
Definition dts : list Q := linspace 1 15 29.

(** The body of the calibration loop (lines 125-129) for the candidate
    [i_dt]: the loss it stores in [losses[i]]. *)
Definition candidate_loss
  (l : Locals.t) (p : Parameters.t) (i_day : Z) (i_dt : Q) : result cell :=
  let intrinsic_growth_rate := get_growth_rate (Some i_dt) in
  self_beta <- get_beta intrinsic_growth_rate (Locals.gamma l)
                        (Locals.susceptible l) 0 ;;
  proj <- run_projection (Locals.rates l) (Locals.lengths_of_stay l)
                         (Locals.susceptible l) (Locals.self_infected l)
                         self_beta (Locals.gamma l) i_day p ;;
  get_loss (Projection.census_df proj) (Parameters.current_hospitalized p) i_day.

(** Lines 124-130: the loop fills [losses] in the order of [dts]. *)
Definition calibration_losses (l : Locals.t) (p : Parameters.t) (i_day : Z)
  : result (list cell) :=
  mapM (candidate_loss l p i_day) dts.

(** Lines 118-143: the branch taken when only the date of the first
    hospitalization is given; [n_days_since] is the day count computed
    from it.  The branch assigns [p.doubling_time], so it returns the
    updated [p]. *)
Definition date_first_hospitalized_branch
  (l : Locals.t) (p : Parameters.t) (n_days_since : Z)
  : result (SimSirModel.t * Parameters.t) :=
  let i_day := n_days_since in
  losses <- calibration_losses l p i_day ;;
  k <- argmin losses ;;
  doubling_time <- np_index dts k ;;
  let p' := Parameters.set_doubling_time p (Some doubling_time) in
  let intrinsic_growth_rate := get_growth_rate (Parameters.doubling_time p') in
  self_beta <- get_beta intrinsic_growth_rate (Locals.gamma l)
                        (Locals.susceptible l) 0 ;;
  proj <- run_projection (Locals.rates l) (Locals.lengths_of_stay l)
                         (Locals.susceptible l) (Locals.self_infected l)
                         self_beta (Locals.gamma l) i_day p' ;;
  Ok (finish l p' (Some n_days_since)
             (Locals.susceptible l) (Locals.self_infected l) (Parameters.recovered p)
             (Locals.beta l) intrinsic_growth_rate
             (Locals.r_t l) (Locals.r_naught l) (Locals.doubling_time_t l)
             i_day (Some (Parameters.current_hospitalized p))
             (Some (Parameters.population p)) proj,
      p').

(** [SimSirModel(p)]: the constructed model and [p] as the constructor
    leaves it. *)
Definition init (p : Parameters.t) : result (SimSirModel.t * Parameters.t) :=
  l <- derive p ;;
  match Parameters.date_first_hospitalized p, Parameters.doubling_time p with
  | None, Some _ => doubling_time_branch l p
  | Some d, None =>
      (* self.n_days_since, set on line 36 *)
      date_first_hospitalized_branch l p (Parameters.current_date p - d)%Z
  | _, _ => Raise AssertionError
  end.
End Model.

(** ** A platform to run the model on

    [pow2_ref] and [log2_ref] agree with [2 ** x] and [log2 x] wherever
    the exponent is an integer and are linear in between; [EPSILON] is the
    value of [penn_chime.constants].  Every general statement below holds
    for any platform; this one serves to run the constructor on concrete
    parameters. *)

Definition pow2_ref (x : Q) : Q :=
  let f := Qfloor x in
  2 ^ f * (1 + (x - inject_Z f)).

Definition log2_ref (x : Q) : Q :=
  let c := (Z.log2 (Qnum x) - Z.log2 (Zpos (Qden x)))%Z in
  let e := if Qle_bool (2 ^ c) x then c else (c - 1)%Z in
  inject_Z e + (x / 2 ^ e - 1).

#[export] Instance reference_platform : Platform := {
  EPSILON := 1 # 10000000;
  pow2 := pow2_ref;
  log2 := log2_ref
}.

(** ** The census stage in the words of the specification *)

Definition is_defined (c : cell) : bool :=
  match c with Some _ => true | None => false end.

(** The number of valid (non-NaN) rows of a column. *)
Definition valid_rows (c : list cell) : nat := length (filter is_defined c).

(** The running total of the admissions [xs] up to and including row [k]. *)
Definition running_total (xs : list Q) (k : nat) : Q :=
  fold_left Qplus (firstn (S k) xs) 0.

(** The census of row [k] as the specification words it: the running total
    up to [k] minus the running total [L] rows earlier (zero before the
    start of the data), rounded up. *)
Definition census_spec (xs : list Q) (L k : nat) : Q :=
  inject_Z (Qceiling (running_total xs k
                      - (if (k <? L)%nat then 0 else running_total xs (k - L)))).

(** ** Readings of the constructor used in the statements *)

(** The argument of the logarithm on line 84. *)
Definition log2_argument (l : Locals.t) : Q :=
  Locals.beta l * Locals.susceptible l - Locals.gamma l + 1.

(** Both of [doubling_time] and [date_first_hospitalized] are supplied,
    or neither is. *)
Definition both_or_neither (p : Parameters.t) : bool :=
  match Parameters.date_first_hospitalized p, Parameters.doubling_time p with
  | None, Some _ => false
  | Some _, None => false
  | _, _ => true
  end.

(** The computation raised [AssertionError]. *)
Definition raises_assertion {A : Type} (c : result A) : bool :=
  match c with
  | Raise AssertionError => true
  | _ => false
  end.

(** ** Example parameters *)

Definition example_hospitalized : Disposition.t := Disposition.mk (1 # 40) 1.

(** Doubling-time mode: a doubling time of one day, so that [2 ** (1/dt)]
    is exactly 2. *)
Definition example_doubling : Parameters.t :=
  Parameters.mk 1000 2 (1 # 2) (Some 10) 100 None (Some 1) (3 # 10) 14 2 0
    example_hospitalized
    [("hospitalized"%string, example_hospitalized)].

(** Date mode: the first hospitalization one day before the current date. *)
Definition example_date : Parameters.t :=
  Parameters.mk 1000 2 (1 # 2) (Some 10) 100 (Some 99%Z) None (3 # 10) 14 1 0
    example_hospitalized
    [("hospitalized"%string, example_hospitalized)].

(** An infectious period of half a day with a relative contact rate of
    4/5: the argument of the logarithm on line 84 is -2/5. *)
Definition example_unphysical : Parameters.t :=
  Parameters.mk 1000 2 (1 # 2) (Some 10) 100 None (Some 1) (4 # 5) (1 # 2) 2 0
    example_hospitalized
    [("hospitalized"%string, example_hospitalized)].

(** The invariant of [argmin_scan] over the Series [L] when the first [k]
    cells have been scanned: [best] is the first position of the smallest
    non-NaN cell among them, if there is one. *)
Definition scan_ok (L : list cell) (k : nat) (best : option (nat * Q)) : Prop :=
  match best with
  | None => forall i x, (i < k)%nat -> nth_error L i <> Some (Some x)
  | Some (j, y) =>
      (j < k)%nat
      /\ nth_error L j = Some (Some y)
      /\ forall i x, (i < k)%nat -> nth_error L i = Some (Some x) ->
                     y <= x /\ ((i < j)%nat -> y < x)
  end.

(** What a run of the constructor on [example_date] is checked for: the
    fitted doubling time is 1 and the rates on the model are the listed
    ones. *)
Definition example_date_check (c : result (SimSirModel.t * Parameters.t)) : bool :=
  match c with
  | Ok (m, p') =>
      match Parameters.doubling_time p' with
      | Some dt =>
          Qeq_bool dt 1
          && Qeq_bool (SimSirModel.intrinsic_growth_rate m) 1
          && Qeq_bool (SimSirModel.gamma m) (1 # 14)
          && Qeq_bool (SimSirModel.susceptible m) 840
          && Qeq_bool (SimSirModel.r_naught m) 1
          && Qeq_bool (SimSirModel.beta m) (1 # 16800)
          && Qeq_bool (SimSirModel.r_t m) (7 # 10)
      | None => false
      end
  | Raise _ => false
  end.


(** ** The census stage on admission columns with NaN rows *)

(** One step of the running total of [cumsum]: a NaN cell is skipped. *)
Definition add_cell (acc : Q) (c : cell) : Q :=
  match c with
  | Some x => acc + x
  | None => acc
  end.

(** The running total of the defined admissions of [col] up to and
    including row [k]. *)
Definition running_cells (col : list cell) (k : nat) : Q :=
  fold_left add_cell (firstn (S k) col) 0.

(** The census of row [k] of an admission column that may hold NaN: NaN
    where the admission of the day is NaN; otherwise the running total up
    to [k] minus the running total [L] rows earlier, the latter counted as
    zero before the start of the data and where the admission of that
    earlier day is NaN ([fillna(0)] fills both), rounded up. *)
Definition census_row (col : list cell) (L k : nat) : cell :=
  match nth_error col k with
  | Some (Some _) =>
      Some (inject_Z
              (Qceiling
                 (running_cells col k
                  - (if (k <? L)%nat then 0
                     else match nth_error col (k - L) with
                          | Some (Some _) => running_cells col (k - L)
                          | _ => 0
                          end))))
  | _ => None
  end.

(** * Properties *)

(** ** Division and the error monad *)

Lemma fdiv_ok (a b : Q) : ~ b == 0 -> fdiv a b = Ok (a / b).
Proof.
  intros Hb. unfold fdiv.
  destruct (Qeq_bool b 0) eqn:E; [| reflexivity].
  apply Qeq_bool_eq in E. contradiction.
Qed.

Lemma fdiv_inv (a b q : Q) : fdiv a b = Ok q -> ~ b == 0 /\ q = a / b.
Proof.
  unfold fdiv. destruct (Qeq_bool b 0) eqn:E; [discriminate |].
  intros [= <-]. split; [| reflexivity].
  now apply Qeq_bool_neq.
Qed.

Lemma bind_ok {A B : Type} (c : result A) (k : A -> result B) (b : B) :
  bind c k = Ok b -> exists a, c = Ok a /\ k a = Ok b.
Proof.
  destruct c as [a | e]; simpl; [| discriminate].
  intros Hk. now exists a.
Qed.

(** Inversion of a successful monadic computation, one bind at a time. *)
Tactic Notation "invert_bind" hyp(H) "as" simple_intropattern(a) ident(Hc) :=
  apply bind_ok in H; destruct H as (a & Hc & H).

Ltac inv_bind H :=
  match type of H with
  | bind ?c ?k = Ok ?b =>
      let a := fresh "v" in
      let Hc := fresh "Hc" in
      apply bind_ok in H; destruct H as (a & Hc & H)
  end.

(** ** The SIR stepper *)

Lemma sir_raw_sum (s i r beta gamma : Q) :
  sir_s_n s i r beta gamma + sir_i_n s i r beta gamma + sir_r_n s i r beta gamma
  == s + i + r.
Proof. unfold sir_s_n, sir_i_n, sir_r_n. ring. Qed.

(** The stepper succeeds as soon as the state sums to a non-zero [n], and
    its result again sums to [n]. *)
Lemma sir_conserves (s i r beta gamma n : Q) :
  s + i + r == n -> ~ n == 0 ->
  exists s' i' r',
    sir s i r beta gamma n = Ok (s', i', r') /\ s' + i' + r' == n.
Proof.
  intros Hsum Hn. unfold sir.
  pose proof (sir_raw_sum s i r beta gamma) as Hraw.
  set (s_n := sir_s_n s i r beta gamma) in *.
  set (i_n := sir_i_n s i r beta gamma) in *.
  set (r_n := sir_r_n s i r beta gamma) in *.
  assert (Hden : ~ s_n + i_n + r_n == 0).
  { rewrite Hraw, Hsum. exact Hn. }
  rewrite (fdiv_ok _ _ Hden). simpl.
  do 3 eexists. split; [reflexivity |].
  field_simplify_eq; [| exact Hden].
  ring.
Qed.

(** C10: when the state already sums to a non-zero [n], the raw update
    keeps the sum, the rescale factor is 1 and [sir] returns the raw
    update (s - beta s i, i + beta s i - gamma i, r + gamma i). *)
Theorem sir_rescale_is_identity (s i r beta gamma n : Q) :
  n == s + i + r -> ~ n == 0 ->
  sir_s_n s i r beta gamma + sir_i_n s i r beta gamma + sir_r_n s i r beta gamma
    == s + i + r
  /\ n / (sir_s_n s i r beta gamma + sir_i_n s i r beta gamma
          + sir_r_n s i r beta gamma) == 1
  /\ exists s' i' r',
       sir s i r beta gamma n = Ok (s', i', r')
       /\ s' == s - beta * s * i
       /\ i' == i + beta * s * i - gamma * i
       /\ r' == r + gamma * i.
Proof.
  intros Hn Hnz.
  pose proof (sir_raw_sum s i r beta gamma) as Hraw.
  assert (Hden : ~ sir_s_n s i r beta gamma + sir_i_n s i r beta gamma
                   + sir_r_n s i r beta gamma == 0).
  { rewrite Hraw, <- Hn. exact Hnz. }
  assert (Hscale : n / (sir_s_n s i r beta gamma + sir_i_n s i r beta gamma
                        + sir_r_n s i r beta gamma) == 1).
  { rewrite Hraw, Hn. field. rewrite <- Hn. exact Hnz. }
  split; [exact Hraw |]. split; [exact Hscale |].
  unfold sir. rewrite (fdiv_ok _ _ Hden). simpl.
  do 3 eexists. split; [reflexivity |].
  rewrite !Hscale. unfold sir_s_n, sir_i_n, sir_r_n.
  repeat split; ring.
Qed.

Lemma sir_rescale_is_identity_witness :
  (10 == 7 + 2 + 1 /\ ~ 10 == 0)
  /\ exists s' i' r',
       sir 7 2 1 (1 # 10) (1 # 2) 10 = Ok (s', i', r')
       /\ s' == 7 - (1 # 10) * 7 * 2
       /\ i' == 2 + (1 # 10) * 7 * 2 - (1 # 2) * 2
       /\ r' == 1 + (1 # 2) * 2.
Proof.
  assert (H1 : 10 == 7 + 2 + 1) by reflexivity.
  assert (H2 : ~ 10 == 0) by discriminate.
  split; [split; assumption |].
  exact (proj2 (proj2 (sir_rescale_is_identity 7 2 1 (1 # 10) (1 # 2) 10 H1 H2))).
Defined.

(** ** The trajectory generator *)

Lemma gen_sir_loop_conserves (k : nat) (beta gamma n : Q) :
  ~ n == 0 ->
  forall (d : Z) (s i r : Q),
    s + i + r == n ->
    exists rows,
      gen_sir_loop k d s i r beta gamma n = Ok rows
      /\ length rows = S k
      /\ Forall (fun row =>
                   row_susceptible row + row_infected row + row_recovered row == n)
                rows.
Proof.
  intros Hn. induction k as [| k IH]; intros d s i r Hsum.
  - exists [mkRawRow d s i r]. simpl. repeat split.
    constructor; [exact Hsum | constructor].
  - destruct (sir_conserves s i r beta gamma n Hsum Hn)
      as (s' & i' & r' & Hstep & Hsum').
    destruct (IH (d + 1)%Z s' i' r' Hsum') as (rest & Hrest & Hlen & Hall).
    exists (mkRawRow d s i r :: rest).
    simpl. rewrite Hstep. simpl. rewrite Hrest. simpl.
    repeat split.
    + now rewrite Hlen.
    + constructor; assumption.
Qed.

(** C2: from a state that sums to [N > 0], [gen_sir] produces its
    [n_days + 1] rows without error and susceptible + infected +
    recovered equals [N] on every one of them (exact arithmetic). *)
Theorem gen_sir_conserves_population
  (s i r beta gamma N : Q) (n_days i_day : Z) :
  s + i + r == N -> 0 < N ->
  exists rows,
    gen_sir s i r beta gamma n_days i_day = Ok rows
    /\ length rows = S (Z.to_nat n_days)
    /\ Forall (fun row =>
                 row_susceptible row + row_infected row + row_recovered row == N)
              rows.
Proof.
  intros Hsum Hpos. unfold gen_sir.
  assert (Hnz : ~ s + i + r == 0).
  { rewrite Hsum. intros E. rewrite E in Hpos. discriminate. }
  destruct (gen_sir_loop_conserves (Z.to_nat n_days) beta gamma (s + i + r) Hnz
              i_day s i r (Qeq_refl _)) as (rows & Hrows & Hlen & Hall).
  exists rows. repeat split; [exact Hrows | exact Hlen |].
  eapply Forall_impl; [| exact Hall].
  intros row Hrow. simpl in Hrow. now rewrite Hrow.
Qed.

Lemma gen_sir_conserves_population_witness :
  (990 + 10 + 0 == 1000 /\ 0 < 1000)
  /\ exists rows,
       gen_sir 990 10 0 (1 # 4000) (1 # 14) 30 (-5) = Ok rows
       /\ length rows = S (Z.to_nat 30)
       /\ Forall (fun row =>
                    row_susceptible row + row_infected row + row_recovered row
                    == 1000)
                 rows.
Proof.
  assert (H1 : 990 + 10 + 0 == 1000) by reflexivity.
  assert (H2 : 0 < 1000) by reflexivity.
  split; [split; assumption |].
  exact (gen_sir_conserves_population 990 10 0 (1 # 4000) (1 # 14) 1000 30 (-5) H1 H2).
Defined.

(** ** Series arithmetic *)

Lemma series_sub_length (l r : list cell) :
  length (series_sub l r) = Nat.max (length l) (length r).
Proof. unfold series_sub. now rewrite length_map, length_seq. Qed.

Lemma shift_length (k : nat) (l : list cell) : length (shift k l) = length l.
Proof.
  unfold shift. rewrite length_firstn, length_app, repeat_length.
  unfold cell. lia.
Qed.

Lemma shift_nth (k : nat) (l : list cell) (j : nat) :
  (j < length l)%nat ->
  nth_error (shift k l) j
  = if (j <? k)%nat then Some None else nth_error l (j - k).
Proof.
  intros Hj. unfold shift. rewrite nth_error_firstn.
  destruct (Nat.ltb_spec j (length l)) as [_ | Hge]; [| lia].
  destruct (Nat.ltb_spec j k) as [Hlt | Hge].
  - rewrite nth_error_app1 by (rewrite repeat_length; exact Hlt).
    now apply nth_error_repeat.
  - rewrite nth_error_app2 by (rewrite repeat_length; exact Hge).
    now rewrite repeat_length.
Qed.

Lemma fillna_length (v : Q) (l : list cell) : length (fillna v l) = length l.
Proof. unfold fillna. apply length_map. Qed.

Lemma cumsum_from_length (acc : Q) (l : list cell) :
  length (cumsum_from acc l) = length l.
Proof.
  revert acc. induction l as [| [x |] t IH]; intros acc; simpl; auto.
Qed.

Lemma cumsum_from_defined (xs : list Q) :
  forall (acc : Q) (k : nat),
    (k < length xs)%nat ->
    nth_error (cumsum_from acc (map Some xs)) k
    = Some (Some (fold_left Qplus (firstn (S k) xs) acc)).
Proof.
  induction xs as [| x t IH]; intros acc k Hk; simpl in Hk; [lia |].
  destruct k as [| k]; simpl.
  - reflexivity.
  - apply IH. lia.
Qed.

Lemma cumsum_defined (xs : list Q) (k : nat) :
  (k < length xs)%nat ->
  nth_error (cumsum (map Some xs)) k = Some (Some (running_total xs k)).
Proof. intros Hk. unfold cumsum, running_total. now apply cumsum_from_defined. Qed.

Lemma count_prefix (a n : nat) :
  length (filter (fun k => (k <? a)%nat) (seq 0 n)) = Nat.min a n.
Proof.
  induction n as [| n IH]; [now rewrite Nat.min_0_r |].
  rewrite seq_S, filter_app, length_app, IH. simpl.
  destruct (Nat.ltb_spec n a); simpl; lia.
Qed.

(** ** The admission stage *)

Lemma admits_column_length (col : list cell) :
  length (admits_column col) = length col.
Proof.
  unfold admits_column. rewrite series_sub_length, shift_length.
  unfold iloc_to_minus. rewrite length_firstn. lia.
Qed.

(** Row 0 has no predecessor and is NaN; so is the last row, which
    [iloc[:-1]] removed from the left operand; a row [k] in between holds
    the first difference. *)
Lemma admits_column_nth (col : list cell) (k : nat) :
  (k < length col)%nat ->
  nth_error (admits_column col) k
  = Some (match k with
          | O => None
          | S j =>
              if (S k <? length col)%nat
              then match nth_error col k, nth_error col j with
                   | Some a, Some b => cell_sub a b
                   | _, _ => None
                   end
              else None
          end).
Proof.
  intros Hk. unfold admits_column, series_sub.
  rewrite nth_error_map, nth_error_seq, shift_length.
  assert (Hlen : length (iloc_to_minus 1 col) = (length col - 1)%nat).
  { unfold iloc_to_minus. rewrite length_firstn. lia. }
  rewrite Hlen.
  destruct (Nat.ltb_spec k (Nat.max (length col - 1) (length col))) as [_ | Hge];
    [| lia].
  simpl. f_equal.
  rewrite (shift_nth 1 col k Hk).
  unfold iloc_to_minus. rewrite nth_error_firstn.
  destruct k as [| j].
  - simpl. destruct (0 <? length col - 1)%nat; [| reflexivity].
    destruct col as [| [x |] t]; reflexivity.
  - replace (S j - 1)%nat with j by lia.
    destruct (Nat.ltb_spec (S j) (length col - 1)) as [Hlt | Hge];
      destruct (Nat.ltb_spec (S (S j)) (length col)) as [Hlt' | Hge'];
      try lia; simpl.
    + reflexivity.
    + now destruct (nth_error col j).
Qed.

Lemma lookup_map {A B : Type} (f : A -> B) (key : string) (d : list (string * A)) :
  lookup key (map (fun '(k, v) => (k, f v)) d) = option_map f (lookup key d).
Proof.
  induction d as [| [k v] t IH]; simpl; [reflexivity |].
  destruct (String.eqb key k); [reflexivity | exact IH].
Qed.

(** C5 (amended): the admission table keeps the [D] rows and the days of
    the disposition table; the row of the earliest day is not dropped but
    undefined (NaN); the row of every day [k] that has a predecessor and
    is not the last day equals the disposition value at day [k] minus the
    value at day [k - 1]. *)
Theorem admission_table_rows
  (dispositions_df : Frame) (key : string) (ds : list Q) :
  lookup key (columns dispositions_df) = Some (map Some ds) ->
  exists col,
    lookup key (columns (build_admits_df dispositions_df)) = Some col
    /\ day (build_admits_df dispositions_df) = day dispositions_df
    /\ length col = length ds
    /\ ((0 < length ds)%nat -> nth_error col 0 = Some None)
    /\ forall k, (1 <= k)%nat -> (S k < length ds)%nat ->
                 nth_error col k = Some (Some (nth k ds 0 - nth (k - 1) ds 0)).
Proof.
  intros Hcol. exists (admits_column (map Some ds)).
  split.
  { unfold build_admits_df. cbn [columns].
    rewrite (lookup_map admits_column), Hcol. reflexivity. }
  split; [reflexivity |].
  split; [now rewrite admits_column_length, length_map |].
  split.
  - intros HD. rewrite admits_column_nth by (now rewrite length_map).
    reflexivity.
  - intros k Hk1 Hk2.
    rewrite admits_column_nth by (rewrite length_map; lia).
    destruct k as [| j]; [lia |].
    rewrite length_map.
    destruct (Nat.ltb_spec (S (S j)) (length ds)) as [_ | Hge]; [| lia].
    rewrite !nth_error_map.
    rewrite (nth_error_nth' ds 0) by lia.
    rewrite (nth_error_nth' ds 0) by lia.
    replace (S j - 1)%nat with j by lia. reflexivity.
Qed.

Lemma admission_table_rows_witness :
  let dispositions_df :=
    mkFrame [0; 1; 2; 3]%Z [100; 101; 102; 103]%Z
            [("hospitalized"%string, map Some [1; 3; 6; 10])] in
  exists col,
    lookup "hospitalized"%string (columns (build_admits_df dispositions_df))
    = Some col
    /\ day (build_admits_df dispositions_df) = day dispositions_df
    /\ length col = length [1; 3; 6; 10]
    /\ ((0 < length [1; 3; 6; 10])%nat -> nth_error col 0 = Some None)
    /\ forall k, (1 <= k)%nat -> (S k < length [1; 3; 6; 10])%nat ->
                 nth_error col k
                 = Some (Some (nth k [1; 3; 6; 10] 0 - nth (k - 1) [1; 3; 6; 10] 0)).
Proof.
  intros dispositions_df.
  apply (admission_table_rows dispositions_df "hospitalized"%string [1; 3; 6; 10]).
  reflexivity.
Defined.

(** C5 as stated fails on a disposition table of four days: the admission
    table has four rows, not three, and besides the first day the last day
    is undefined too: [iloc[:-1]] removed the last row of the left operand
    and the subtraction aligned the operands on their index again, so the
    difference 10 - 6 of the last day is lost. *)
Lemma admission_table_counterexample :
  let dispositions_df :=
    mkFrame [0; 1; 2; 3]%Z [100; 101; 102; 103]%Z
            [("hospitalized"%string, [Some 1; Some 3; Some 6; Some 10])] in
  let col := [None; Some (3 - 1); Some (6 - 3); None] in
  day (build_admits_df dispositions_df) = [0; 1; 2; 3]%Z
  /\ columns (build_admits_df dispositions_df) = [("hospitalized"%string, col)]
  /\ length col = 4%nat
  /\ nth_error col 3 = Some None.
Proof. repeat split. Qed.

(** ** The census stage *)

Lemma iloc_to_minus_length (L : nat) (l : list cell) :
  (1 <= L)%nat -> length (iloc_to_minus L l) = (length l - L)%nat.
Proof.
  intros HL. destruct L as [| L]; [lia |].
  unfold iloc_to_minus. rewrite length_firstn. lia.
Qed.

Lemma iloc_to_minus_nth (L : nat) (l : list cell) (k : nat) :
  (1 <= L)%nat ->
  nth_error (iloc_to_minus L l) k
  = if (k <? length l - L)%nat then nth_error l k else None.
Proof.
  intros HL. destruct L as [| L]; [lia |].
  unfold iloc_to_minus. apply nth_error_firstn.
Qed.

Lemma cumsum_map_Some_length (xs : list Q) :
  length (cumsum (map Some xs)) = length xs.
Proof. unfold cumsum. now rewrite cumsum_from_length, length_map. Qed.

(** On a fully defined admission column the census column is, row by row,
    what the specification says, on the first [M - L] rows, and NaN on the
    last [L]. *)
Lemma census_column_defined (xs : list Q) (L : nat) :
  (1 <= L)%nat ->
  census_column L (map Some xs)
  = map (fun k => if (k <? length xs - L)%nat
                  then Some (census_spec xs L k) else None)
        (seq 0 (length xs)).
Proof.
  intros HL. unfold census_column, series_sub. rewrite map_map.
  rewrite (iloc_to_minus_length L _ HL), fillna_length, shift_length,
    cumsum_map_Some_length.
  replace (Nat.max (length xs - L) (length xs)) with (length xs) by lia.
  apply map_ext_in. intros k Hk. apply in_seq in Hk.
  rewrite (iloc_to_minus_nth L _ k HL), cumsum_map_Some_length.
  unfold fillna. rewrite nth_error_map.
  rewrite shift_nth by (rewrite cumsum_map_Some_length; lia).
  destruct (Nat.ltb_spec k (length xs - L)) as [Hlt | Hge]; [| reflexivity].
  rewrite cumsum_defined by lia.
  unfold census_spec.
  destruct (Nat.ltb_spec k L) as [HkL | HkL]; simpl.
  - reflexivity.
  - rewrite cumsum_defined by lia. reflexivity.
Qed.

Lemma valid_rows_census_column (xs : list Q) (L : nat) :
  (1 <= L)%nat ->
  valid_rows (census_column L (map Some xs)) = (length xs - L)%nat.
Proof.
  intros HL. rewrite (census_column_defined xs L HL).
  unfold valid_rows. rewrite filter_map_swap, length_map.
  rewrite (filter_ext _ (fun k => (k <? length xs - L)%nat)).
  - rewrite count_prefix. lia.
  - intros k. now destruct (k <? length xs - L)%nat.
Qed.

Lemma lookup_mapM_census (admits_df : Frame) (lengths_of_stay : list (string * nat)) :
  (forall k l, In (k, l) lengths_of_stay -> lookup k (columns admits_df) <> None) ->
  exists cols,
    mapM (fun '(key, los) =>
            col <- getitem admits_df key ;;
            Ok (key, census_column los col))
         lengths_of_stay = Ok cols
    /\ forall key L col,
         lookup key lengths_of_stay = Some L ->
         lookup key (columns admits_df) = Some col ->
         lookup key cols = Some (census_column L col).
Proof.
  induction lengths_of_stay as [| [k0 l0] t IH]; intros Hkeys.
  - exists []. split; [reflexivity |]. intros key L col Hk. discriminate.
  - destruct IH as (cols & Hcols & Hlook).
    { intros k l Hin. apply (Hkeys k l). now right. }
    destruct (lookup k0 (columns admits_df)) as [c0 |] eqn:Hc0.
    2: { exfalso. apply (Hkeys k0 l0); [now left | exact Hc0]. }
    exists ((k0, census_column l0 c0) :: cols).
    split.
    + cbn [mapM]. unfold getitem at 1. rewrite Hc0. cbn [bind].
      rewrite Hcols. reflexivity.
    + intros key L col HL Hcol. simpl in *.
      destruct (String.eqb key k0) eqn:E.
      * apply String.eqb_eq in E. subst k0.
        injection HL as <-. rewrite Hc0 in Hcol. injection Hcol as <-.
        reflexivity.
      * now apply Hlook.
Qed.

(** The special case of an admission column without NaN: for [M] defined
    rows and a length of stay [L >= 1], [build_census_df] succeeds and the
    census column has exactly [M - L] valid rows (none when [L >= M]): the
    first [M - L], each the running total up to that day minus the running
    total [L] days earlier (zero before the start of the data), rounded
    up. *)
Lemma census_length_contract
  (admits_df : Frame) (lengths_of_stay : list (string * nat))
  (key : string) (L : nat) (xs : list Q) :
  (forall k l, In (k, l) lengths_of_stay -> lookup k (columns admits_df) <> None) ->
  lookup key lengths_of_stay = Some L ->
  lookup key (columns admits_df) = Some (map Some xs) ->
  (1 <= L)%nat ->
  exists census_df col,
    build_census_df admits_df lengths_of_stay = Ok census_df
    /\ lookup key (columns census_df) = Some col
    /\ length col = length xs
    /\ valid_rows col = (length xs - L)%nat
    /\ forall k, (k < length xs - L)%nat ->
                 nth_error col k = Some (Some (census_spec xs L k)).
Proof.
  intros Hkeys HL Hcol Hpos.
  destruct (lookup_mapM_census admits_df lengths_of_stay Hkeys)
    as (cols & Hcols & Hlook).
  exists (mkFrame (day admits_df) (date admits_df) cols),
         (census_column L (map Some xs)).
  split; [unfold build_census_df; rewrite Hcols; reflexivity |].
  split; [exact (Hlook key L _ HL Hcol) |].
  split; [| split].
  - rewrite (census_column_defined xs L Hpos). now rewrite length_map, length_seq.
  - exact (valid_rows_census_column xs L Hpos).
  - intros k Hk. rewrite (census_column_defined xs L Hpos).
    rewrite nth_error_map, nth_error_seq.
    destruct (Nat.ltb_spec k (length xs)) as [_ | Hge]; [| lia].
    simpl. destruct (Nat.ltb_spec k (length xs - L)) as [_ | Hge]; [| lia].
    reflexivity.
Qed.

Lemma census_length_contract_witness :
  let admits_df :=
    mkFrame [0; 1; 2; 3]%Z [100; 101; 102; 103]%Z
            [("hospitalized"%string, map Some [2; 3; 5; 7])] in
  let lengths_of_stay := [("hospitalized"%string, 3%nat)] in
  exists census_df col,
    build_census_df admits_df lengths_of_stay = Ok census_df
    /\ lookup "hospitalized"%string (columns census_df) = Some col
    /\ length col = length [2; 3; 5; 7]
    /\ valid_rows col = (length [2; 3; 5; 7] - 3)%nat
    /\ forall k, (k < length [2; 3; 5; 7] - 3)%nat ->
                 nth_error col k = Some (Some (census_spec [2; 3; 5; 7] 3 k)).
Proof.
  intros admits_df lengths_of_stay.
  apply (census_length_contract admits_df lengths_of_stay
           "hospitalized"%string 3%nat [2; 3; 5; 7]).
  - intros k l [[= <- <-] | []]. discriminate.
  - reflexivity.
  - reflexivity.
  - lia.
Defined.

(** ** The constructor: what [derive] computes *)

Section Constructor.
Context `{Platform}.

Lemma derive_inv (p : Parameters.t) (l : Locals.t) :
  derive p = Ok l ->
  Locals.infected l
  = Parameters.current_hospitalized p / Parameters.market_share p
    / Disposition.rate (Parameters.hospitalized p)
  /\ Locals.susceptible l = Parameters.population p - Locals.infected l
  /\ Locals.intrinsic_growth_rate l = get_growth_rate (Parameters.doubling_time p)
  /\ Locals.gamma l = 1 / Parameters.infectious_days p
  /\ Locals.beta l
     = (Locals.intrinsic_growth_rate l + Locals.gamma l) / Locals.susceptible l
       * (1 - Parameters.relative_contact_rate p)
  /\ Locals.r_t l = Locals.beta l / Locals.gamma l * Locals.susceptible l
  /\ Locals.r_naught l
     = (Locals.intrinsic_growth_rate l + Locals.gamma l) / Locals.gamma l
  /\ Locals.doubling_time_t l = np_reciprocal (np_log2 (log2_argument l))
  /\ Locals.self_infected l
     = 1 / Disposition.rate (Parameters.hospitalized p) / Parameters.market_share p
  /\ ~ Locals.susceptible l == 0
  /\ ~ Locals.gamma l == 0.
Proof.
  unfold derive. intros Hd.
  repeat inv_bind Hd.
  repeat match goal with
         | Hf : fdiv _ _ = Ok _ |- _ =>
             apply fdiv_inv in Hf; destruct Hf as [? ?]
         end.
  injection Hd as <-. subst. unfold log2_argument. simpl.
  repeat split; assumption.
Qed.
End Constructor.

(** ** Which exceptions the constructor can raise *)

Lemma raises_assertion_false {A : Type} (c : result A) :
  c <> Raise AssertionError -> raises_assertion c = false.
Proof.
  intros Hc. destruct c as [a | []]; try reflexivity. now elim Hc.
Qed.

Lemma no_assertion_bind {A B : Type} (c : result A) (k : A -> result B) :
  c <> Raise AssertionError ->
  (forall a, k a <> Raise AssertionError) ->
  bind c k <> Raise AssertionError.
Proof.
  intros Hc Hk. destruct c as [a | e]; simpl.
  - apply Hk.
  - intros [= ->]. now apply Hc.
Qed.

Lemma no_assertion_fdiv (a b : Q) : fdiv a b <> Raise AssertionError.
Proof. unfold fdiv. destruct (Qeq_bool b 0); discriminate. Qed.

Lemma no_assertion_loc {A : Type} (l : list A) (z : Z) :
  loc l z <> Raise AssertionError.
Proof.
  unfold loc. destruct (z <? 0)%Z; [discriminate |].
  destruct (nth_error l (Z.to_nat z)); discriminate.
Qed.

Lemma no_assertion_np_index {A : Type} (l : list A) (z : Z) :
  np_index l z <> Raise AssertionError.
Proof.
  unfold np_index.
  destruct (_ <? 0)%Z; [discriminate |].
  destruct (nth_error l _); discriminate.
Qed.

Lemma no_assertion_argmin (l : list cell) : argmin l <> Raise AssertionError.
Proof.
  unfold argmin. destruct l; [discriminate |].
  destruct (argmin_scan None 0 _) as [[j y] |]; discriminate.
Qed.

Lemma no_assertion_mapM {A B : Type} (f : A -> result B) (l : list A) :
  (forall a, f a <> Raise AssertionError) ->
  mapM f l <> Raise AssertionError.
Proof.
  intros Hf. induction l as [| a t IH]; simpl; [discriminate |].
  apply no_assertion_bind; [apply Hf |]. intros b.
  apply no_assertion_bind; [exact IH |]. discriminate.
Qed.

Lemma no_assertion_getattr (df : Frame) :
  getattr_hospitalized df <> Raise AssertionError.
Proof. unfold getattr_hospitalized. destruct (lookup _ _); discriminate. Qed.

Lemma no_assertion_getitem (df : Frame) (key : string) :
  getitem df key <> Raise AssertionError.
Proof. unfold getitem. destruct (lookup _ _); discriminate. Qed.

Lemma no_assertion_sir (s i r beta gamma n : Q) :
  sir s i r beta gamma n <> Raise AssertionError.
Proof.
  unfold sir. apply no_assertion_bind; [apply no_assertion_fdiv | discriminate].
Qed.

Lemma no_assertion_gen_sir_loop (k : nat) (beta gamma n : Q) :
  forall (d : Z) (s i r : Q),
    gen_sir_loop k d s i r beta gamma n <> Raise AssertionError.
Proof.
  induction k as [| k IH]; intros d s i r; simpl; [discriminate |].
  apply no_assertion_bind; [apply no_assertion_sir |].
  intros [[s' i'] r'].
  apply no_assertion_bind; [apply IH | discriminate].
Qed.

Lemma no_assertion_build_census_df (admits_df : Frame) (los : list (string * nat)) :
  build_census_df admits_df los <> Raise AssertionError.
Proof.
  unfold build_census_df.
  apply no_assertion_bind; [| discriminate].
  apply no_assertion_mapM. intros [key l].
  apply no_assertion_bind; [apply no_assertion_getitem | discriminate].
Qed.

Lemma no_assertion_get_argmin_ds (df : Frame) (ch : Q) :
  get_argmin_ds df ch <> Raise AssertionError.
Proof.
  unfold get_argmin_ds.
  apply no_assertion_bind; [apply no_assertion_getattr |].
  intros c. apply no_assertion_argmin.
Qed.

Lemma no_assertion_get_loss (df : Frame) (ch : Q) (z : Z) :
  get_loss df ch z <> Raise AssertionError.
Proof.
  unfold get_loss.
  apply no_assertion_bind; [apply no_assertion_getattr |]. intros c.
  apply no_assertion_bind; [apply no_assertion_loc | discriminate].
Qed.

Lemma no_assertion_get_beta (g gamma s rcr : Q) :
  get_beta g gamma s rcr <> Raise AssertionError.
Proof.
  unfold get_beta.
  apply no_assertion_bind; [apply no_assertion_fdiv | discriminate].
Qed.

Create HintDb no_assertion.

#[local] Hint Resolve no_assertion_fdiv no_assertion_loc no_assertion_np_index
  no_assertion_argmin no_assertion_getattr no_assertion_getitem
  no_assertion_sir no_assertion_gen_sir_loop no_assertion_build_census_df
  no_assertion_get_argmin_ds no_assertion_get_loss no_assertion_get_beta
  : no_assertion.

(** Peels the binds of a goal [_ <> Raise AssertionError]. *)
Ltac no_assertion :=
  repeat first
    [ apply no_assertion_bind; [solve [auto with no_assertion] | intros ?]
    | discriminate
    | solve [auto with no_assertion] ].

Section Exceptions.
Context `{Platform}.

Lemma no_assertion_run_projection
  (rates : list (string * Q)) (los : list (string * nat))
  (s i beta gamma : Q) (i_day : Z) (p : Parameters.t) :
  run_projection rates los s i beta gamma i_day p <> Raise AssertionError.
Proof.
  unfold run_projection, sim_sir_df, gen_sir. no_assertion.
Qed.

Lemma no_assertion_derive (p : Parameters.t) :
  derive p <> Raise AssertionError.
Proof.
  unfold derive. no_assertion.
  apply no_assertion_bind.
  - destruct (Qlt_le_dec EPSILON _); [| discriminate].
    destruct (Parameters.known_infected p); [| discriminate].
    no_assertion.
  - intros ?. no_assertion.
Qed.

Lemma no_assertion_doubling_time_branch (l : Locals.t) (p : Parameters.t) :
  doubling_time_branch l p <> Raise AssertionError.
Proof.
  pose proof no_assertion_run_projection.
  unfold doubling_time_branch. no_assertion.
Qed.

Lemma no_assertion_date_first_hospitalized_branch
  (l : Locals.t) (p : Parameters.t) (n_days_since : Z) :
  date_first_hospitalized_branch l p n_days_since <> Raise AssertionError.
Proof.
  pose proof no_assertion_run_projection.
  unfold date_first_hospitalized_branch, calibration_losses.
  apply no_assertion_bind.
  - apply no_assertion_mapM. intros i_dt. unfold candidate_loss. no_assertion.
  - intros losses. no_assertion.
Qed.

(** C9: when both or neither of [doubling_time] and
    [date_first_hospitalized] are supplied, construction always fails:
    with the mutual-exclusion [AssertionError], or with the error the
    derivation of the rates has already raised.  When exactly one is
    supplied, the constructor runs the branch of that field and does
    not raise the [AssertionError]. *)
Theorem init_mutual_exclusion (p : Parameters.t) :
  if both_or_neither p
  then exists e, init p = Raise e /\ (e = AssertionError \/ derive p = Raise e)
  else raises_assertion (init p) = false
       /\ init p
          = match Parameters.date_first_hospitalized p with
            | Some d =>
                l <- derive p ;;
                date_first_hospitalized_branch
                  l p (Parameters.current_date p - d)%Z
            | None =>
                l <- derive p ;; doubling_time_branch l p
            end.
Proof.
  unfold both_or_neither, init.
  destruct (Parameters.date_first_hospitalized p) as [d |],
           (Parameters.doubling_time p) as [dt |].
  - destruct (derive p) as [l | e]; simpl; eauto.
  - split; [| reflexivity].
    apply raises_assertion_false.
    apply no_assertion_bind; [apply no_assertion_derive |].
    intros l. apply no_assertion_date_first_hospitalized_branch.
  - split; [| reflexivity].
    apply raises_assertion_false.
    apply no_assertion_bind; [apply no_assertion_derive |].
    intros l. apply no_assertion_doubling_time_branch.
  - destruct (derive p) as [l | e]; simpl; eauto.
Qed.
End Exceptions.

(** ** The constructor: what each branch leaves on the model *)

Lemma gen_sir_loop_head (k : nat) (d : Z) (s i r beta gamma n : Q)
  (rows : list RawRow) :
  gen_sir_loop k d s i r beta gamma n = Ok rows ->
  exists rest, rows = mkRawRow d s i r :: rest.
Proof.
  destruct k as [| k]; simpl; intros Hg.
  - injection Hg as <-. now exists [].
  - inv_bind Hg. destruct v as [[s' i'] r'].
    inv_bind Hg. injection Hg as <-. eauto.
Qed.



Section Branches.
Context `{Platform}.

Lemma run_projection_inv
  (rates : list (string * Q)) (los : list (string * nat))
  (s i beta gamma : Q) (i_day : Z) (p : Parameters.t) (proj : Projection.t) :
  run_projection rates los s i beta gamma i_day p = Ok proj ->
  sim_sir_df s i (Parameters.recovered p) beta gamma
             (Parameters.n_days p + i_day)%Z (- i_day)%Z
  = Ok (Projection.raw_df proj)
  /\ Projection.admits_df proj
     = build_admits_df
         (build_dispositions_df (Projection.raw_df proj) rates
            (Parameters.market_share p) (Parameters.current_date p))
  /\ build_census_df (Projection.admits_df proj) los
     = Ok (Projection.census_df proj).
Proof.
  unfold run_projection. intros Hr.
  repeat inv_bind Hr. injection Hr as <-. simpl. auto.
Qed.

(** The first row of every projection is the state the model holds:
    day [- i_day], [self.susceptible], [self.infected], [p.recovered]. *)
Lemma run_projection_first_row
  (rates : list (string * Q)) (los : list (string * nat))
  (s i beta gamma : Q) (i_day : Z) (p : Parameters.t) (proj : Projection.t) :
  run_projection rates los s i beta gamma i_day p = Ok proj ->
  exists rest,
    Projection.raw_df proj
    = mkRawRow (- i_day)%Z s i (Parameters.recovered p) :: rest.
Proof.
  intros Hr. apply run_projection_inv in Hr. destruct Hr as (Hs & _).
  unfold sim_sir_df, gen_sir in Hs.
  exact (gen_sir_loop_head _ _ _ _ _ _ _ _ _ Hs).
Qed.

Lemma doubling_time_branch_inv
  (l : Locals.t) (p : Parameters.t) (m : SimSirModel.t) (p' : Parameters.t) :
  doubling_time_branch l p = Ok (m, p') ->
  p' = p
  /\ SimSirModel.beta m
     = (Locals.intrinsic_growth_rate l + Locals.gamma l) / Locals.susceptible l
  /\ SimSirModel.gamma m = Locals.gamma l
  /\ SimSirModel.r_t m = Locals.r_t l
  /\ SimSirModel.doubling_time_t m = Locals.doubling_time_t l
  /\ exists proj1,
       run_projection (Locals.rates l) (Locals.lengths_of_stay l)
                      (Locals.susceptible l) (Locals.self_infected l)
                      (SimSirModel.beta m) (Locals.gamma l) 0 p = Ok proj1
       /\ get_argmin_ds (Projection.census_df proj1)
                        (Parameters.current_hospitalized p)
          = Ok (SimSirModel.i_day m)
       /\ run_projection (Locals.rates l) (Locals.lengths_of_stay l)
                         (Locals.susceptible l) (Locals.self_infected l)
                         (SimSirModel.beta m) (Locals.gamma l)
                         (SimSirModel.i_day m) p
          = Ok (SimSirModel.projection m).
Proof.
  unfold doubling_time_branch. intros Hb.
  repeat inv_bind Hb. injection Hb as <- <-.
  apply fdiv_inv in Hc. destruct Hc as [_ ->].
  simpl. repeat split; try reflexivity.
  eexists. repeat split; eassumption.
Qed.

Lemma date_first_hospitalized_branch_inv
  (l : Locals.t) (p : Parameters.t) (n_days_since : Z)
  (m : SimSirModel.t) (p' : Parameters.t) :
  date_first_hospitalized_branch l p n_days_since = Ok (m, p') ->
  exists losses k dt fitted_beta,
    calibration_losses l p n_days_since = Ok losses
    /\ argmin losses = Ok k
    /\ np_index dts k = Ok dt
    /\ p' = Parameters.set_doubling_time p (Some dt)
    /\ get_beta (get_growth_rate (Some dt)) (Locals.gamma l)
                (Locals.susceptible l) 0 = Ok fitted_beta
    /\ run_projection (Locals.rates l) (Locals.lengths_of_stay l)
                      (Locals.susceptible l) (Locals.self_infected l)
                      fitted_beta (Locals.gamma l) n_days_since p'
       = Ok (SimSirModel.projection m)
    /\ SimSirModel.i_day m = n_days_since
    /\ SimSirModel.intrinsic_growth_rate m = get_growth_rate (Some dt)
    /\ SimSirModel.beta m = Locals.beta l
    /\ SimSirModel.r_t m = Locals.r_t l
    /\ SimSirModel.r_naught m = Locals.r_naught l
    /\ SimSirModel.doubling_time_t m = Locals.doubling_time_t l.
Proof.
  unfold date_first_hospitalized_branch. intros Hb.
  repeat inv_bind Hb. injection Hb as <- <-.
  do 4 eexists. simpl. repeat split; eassumption.
Qed.

(** The two successful runs of the constructor. *)
Lemma init_inv (p : Parameters.t) (m : SimSirModel.t) (p' : Parameters.t) :
  init p = Ok (m, p') ->
  exists l,
    derive p = Ok l
    /\ ((Parameters.date_first_hospitalized p = None
         /\ (exists dt, Parameters.doubling_time p = Some dt)
         /\ doubling_time_branch l p = Ok (m, p'))
        \/ (exists d,
              Parameters.date_first_hospitalized p = Some d
              /\ Parameters.doubling_time p = None
              /\ date_first_hospitalized_branch
                   l p (Parameters.current_date p - d)%Z = Ok (m, p'))).
Proof.
  unfold init. intros Hi. inv_bind Hi. exists v. split; [exact Hc |].
  destruct (Parameters.date_first_hospitalized p) as [d |],
           (Parameters.doubling_time p) as [dt |]; try discriminate.
  - right. exists d. auto.
  - left. eauto.
Qed.

(** Every projection of a constructed model starts from
    [self.susceptible] and [self.infected] as lines 87 and 98 set them. *)
Lemma init_projection_start
  (p : Parameters.t) (m : SimSirModel.t) (p' : Parameters.t) :
  init p = Ok (m, p') ->
  exists l rest,
    derive p = Ok l
    /\ Projection.raw_df (SimSirModel.projection m)
       = mkRawRow (- SimSirModel.i_day m)%Z (Locals.susceptible l)
                  (Locals.self_infected l) (Parameters.recovered p) :: rest.
Proof.
  intros Hi. apply init_inv in Hi. destruct Hi as (l & Hd & Hbr).
  exists l.
  destruct Hbr as [(_ & _ & Hb) | (d & _ & _ & Hb)].
  - apply doubling_time_branch_inv in Hb.
    destruct Hb as (-> & _ & _ & _ & _ & proj1 & _ & _ & Hrun).
    apply run_projection_first_row in Hrun. destruct Hrun as (rest & ->).
    now exists rest.
  - apply date_first_hospitalized_branch_inv in Hb.
    destruct Hb as (losses & k & dt & fb & _ & _ & _ & -> & _ & Hrun & Hday & _).
    apply run_projection_first_row in Hrun. destruct Hrun as (rest & ->).
    exists rest. now rewrite Hday.
Qed.
End Branches.

(** ** Runs of the constructor on the example parameters *)

Lemma init_example_doubling_ok : is_ok (init example_doubling) = true.
Proof. vm_compute. reflexivity. Qed.

Lemma init_example_unphysical_ok : is_ok (init example_unphysical) = true.
Proof. vm_compute. reflexivity. Qed.

(** On [example_date] the loss of the first candidate, a doubling time of
    one day, is 0: it is selected whatever the losses of the others. *)
Lemma init_example_date_rates : example_date_check (init example_date) = true.
Proof. vm_compute. reflexivity. Qed.

Lemma init_example_date_ok : is_ok (init example_date) = true.
Proof.
  pose proof init_example_date_rates as Hcheck.
  now destruct (init example_date).
Qed.

(** ** C1: the state the projection starts from *)

(** C1 (amended): the first row of the projection a constructed model
    holds, i.e. the state the projection starts from, has
    infected = 1 / hospitalized.rate / market_share (line 98), whatever
    [current_hospitalized] is, and susceptible = population -
    current_hospitalized / market_share / hospitalized.rate. *)
Theorem projection_initial_state `{Platform}
  (p : Parameters.t) (m : SimSirModel.t) (p' : Parameters.t) :
  init p = Ok (m, p') ->
  exists row rest,
    Projection.raw_df (SimSirModel.projection m) = row :: rest
    /\ row_day row = (- SimSirModel.i_day m)%Z
    /\ row_infected row
       = 1 / Disposition.rate (Parameters.hospitalized p)
         / Parameters.market_share p
    /\ row_susceptible row
       = Parameters.population p
         - Parameters.current_hospitalized p / Parameters.market_share p
           / Disposition.rate (Parameters.hospitalized p)
    /\ row_recovered row = Parameters.recovered p.
Proof.
  intros Hi.
  destruct (init_projection_start p m p' Hi) as (l & rest & Hd & Hraw).
  apply derive_inv in Hd.
  destruct Hd as (Hinf & Hsus & _ & _ & _ & _ & _ & _ & Hself & _).
  rewrite Hinf in Hsus.
  exists (mkRawRow (- SimSirModel.i_day m)%Z (Locals.susceptible l)
                   (Locals.self_infected l) (Parameters.recovered p)), rest.
  simpl. rewrite <- Hself, <- Hsus. repeat split. exact Hraw.
Qed.

Lemma projection_initial_state_witness :
  exists m p',
    init example_doubling = Ok (m, p')
    /\ exists row rest,
         Projection.raw_df (SimSirModel.projection m) = row :: rest
         /\ row_day row = (- SimSirModel.i_day m)%Z
         /\ row_infected row = 1 / (1 # 40) / (1 # 2)
         /\ row_susceptible row = 1000 - 2 / (1 # 2) / (1 # 40)
         /\ row_recovered row = 0.
Proof.
  destruct (init example_doubling) as [[m p'] | e] eqn:E.
  - exists m, p'. split; [reflexivity |].
    exact (projection_initial_state example_doubling m p' E).
  - pose proof init_example_doubling_ok as Hok.
    rewrite E in Hok. discriminate.
Defined.

(** C1 as stated fails on [example_doubling], where two patients are
    hospitalized: the projection starts from 80 infected, not from
    current_hospitalized / market_share / hospitalized.rate = 160. *)
Lemma projection_initial_infected_counterexample :
  exists m p' row rest,
    init example_doubling = Ok (m, p')
    /\ Projection.raw_df (SimSirModel.projection m) = row :: rest
    /\ row_infected row == 80
    /\ ~ row_infected row
         == Parameters.current_hospitalized example_doubling
            / Parameters.market_share example_doubling
            / Disposition.rate (Parameters.hospitalized example_doubling).
Proof.
  destruct (init example_doubling) as [[m p'] | e] eqn:E.
  - destruct (init_projection_start example_doubling m p' E)
      as (l & rest & Hd & Hraw).
    apply derive_inv in Hd.
    destruct Hd as (_ & _ & _ & _ & _ & _ & _ & _ & Hself & _).
    exists m, p', (mkRawRow (- SimSirModel.i_day m)%Z (Locals.susceptible l)
                            (Locals.self_infected l)
                            (Parameters.recovered example_doubling)), rest.
    split; [reflexivity |]. split; [exact Hraw |].
    simpl. rewrite Hself. split; [reflexivity | discriminate].
  - pose proof init_example_doubling_ok as Hok.
    rewrite E in Hok. discriminate.
Qed.

(** ** C3: the beta of the two projections in doubling-time mode *)

Lemma sir_susceptible (s i r beta gamma n s1 i1 r1 : Q) :
  s + i + r == n -> ~ n == 0 ->
  sir s i r beta gamma n = Ok (s1, i1, r1) ->
  s1 == s - beta * s * i.
Proof.
  intros Hsum Hn. unfold sir. intros Hs. inv_bind Hs.
  apply fdiv_inv in Hc. destruct Hc as [Hden ->].
  injection Hs as <- _ _.
  pose proof (sir_raw_sum s i r beta gamma) as Hraw.
  setoid_replace (n / (sir_s_n s i r beta gamma + sir_i_n s i r beta gamma
                       + sir_r_n s i r beta gamma)) with 1.
  - unfold sir_s_n. ring.
  - rewrite Hraw, Hsum. field. exact Hn.
Qed.

(** Two trajectories of at least one step from the same state can only
    coincide when the two contact rates move the same number of people
    out of the susceptible compartment on the first day. *)
Lemma sim_sir_df_same_rows (s i r b b' gamma : Q) (N d : Z) (rows : list RawRow) :
  (1 <= N)%Z -> ~ s + i + r == 0 ->
  sim_sir_df s i r b gamma N d = Ok rows ->
  sim_sir_df s i r b' gamma N d = Ok rows ->
  b * s * i == b' * s * i.
Proof.
  intros HN Hn. unfold sim_sir_df, gen_sir.
  destruct (Z.to_nat N) as [| k] eqn:Ek; [lia |].
  simpl. intros H1 H2.
  invert_bind H1 as [[s1 i1] r1] Hstep1. invert_bind H1 as tl1 Htl1.
  injection H1 as <-.
  invert_bind H2 as [[s2 i2] r2] Hstep2. invert_bind H2 as tl2 Htl2.
  injection H2 as Heq.
  apply gen_sir_loop_head in Htl1. destruct Htl1 as (rest1 & ->).
  apply gen_sir_loop_head in Htl2. destruct Htl2 as (rest2 & ->).
  injection Heq as Hs _ _ _.
  pose proof (sir_susceptible _ _ _ _ _ _ _ _ _ (Qeq_refl _) Hn Hstep1) as E1.
  pose proof (sir_susceptible _ _ _ _ _ _ _ _ _ (Qeq_refl _) Hn Hstep2) as E2.
  rewrite Hs in E2. rewrite E1 in E2.
  apply (Qplus_inj_l _ _ (- s)) in E2.
  setoid_replace (b * s * i) with (- (- s + (s - b * s * i))) by ring.
  setoid_replace (b' * s * i) with (- (- s + (s - b' * s * i))) by ring.
  now rewrite E2.
Qed.

Lemma argmin_lower_bound (l : list cell) (z : Z) :
  argmin l = Ok z -> (-1 <= z)%Z.
Proof.
  unfold argmin. destruct l as [| c t]; [discriminate |].
  destruct (argmin_scan None 0 (c :: t)) as [[j y] |]; intros [= <-]; lia.
Qed.

Lemma get_argmin_ds_lower_bound (df : Frame) (ch : Q) (z : Z) :
  get_argmin_ds df ch = Ok z -> (-1 <= z)%Z.
Proof.
  unfold get_argmin_ds. intros Hg. inv_bind Hg.
  now apply argmin_lower_bound in Hg.
Qed.

(** C3 (amended): in doubling-time mode the scanning projection anchored
    at day 0 and the final projection anchored at the adopted [i_day]
    both run with the same undiscounted
    beta = (growth_rate + gamma) / susceptible, which is also the [beta]
    the model exposes; the final raw trajectory is the one [sim_sir_df]
    generates with it. *)
Theorem doubling_mode_projections_share_beta `{Platform}
  (p : Parameters.t) (dt : Q) (m : SimSirModel.t) (p' : Parameters.t) :
  init p = Ok (m, p') ->
  Parameters.date_first_hospitalized p = None ->
  Parameters.doubling_time p = Some dt ->
  exists l proj1,
    derive p = Ok l
    /\ SimSirModel.beta m
       = (get_growth_rate (Some dt) + Locals.gamma l) / Locals.susceptible l
    /\ run_projection (Locals.rates l) (Locals.lengths_of_stay l)
                      (Locals.susceptible l) (Locals.self_infected l)
                      (SimSirModel.beta m) (Locals.gamma l) 0 p = Ok proj1
    /\ get_argmin_ds (Projection.census_df proj1)
                     (Parameters.current_hospitalized p)
       = Ok (SimSirModel.i_day m)
    /\ run_projection (Locals.rates l) (Locals.lengths_of_stay l)
                      (Locals.susceptible l) (Locals.self_infected l)
                      (SimSirModel.beta m) (Locals.gamma l)
                      (SimSirModel.i_day m) p
       = Ok (SimSirModel.projection m)
    /\ sim_sir_df (Locals.susceptible l) (Locals.self_infected l)
                  (Parameters.recovered p) (SimSirModel.beta m) (Locals.gamma l)
                  (Parameters.n_days p + SimSirModel.i_day m)%Z
                  (- SimSirModel.i_day m)%Z
       = Ok (Projection.raw_df (SimSirModel.projection m)).
Proof.
  intros Hi Hdate Hdt.
  apply init_inv in Hi. destruct Hi as (l & Hd & Hbr).
  destruct Hbr as [(_ & _ & Hb) | (d & Hdate' & _)].
  2: { rewrite Hdate in Hdate'. discriminate. }
  apply doubling_time_branch_inv in Hb.
  destruct Hb as (_ & Hbeta & _ & _ & _ & proj1 & Hrun1 & Harg & Hrun2).
  exists l, proj1.
  split; [exact Hd |].
  split.
  { rewrite Hbeta. apply derive_inv in Hd.
    destruct Hd as (_ & _ & Hg & _). now rewrite Hg, Hdt. }
  repeat split; try assumption.
  now apply run_projection_inv in Hrun2.
Qed.

Lemma doubling_mode_projections_share_beta_witness :
  exists m p' l proj1,
    init example_doubling = Ok (m, p')
    /\ derive example_doubling = Ok l
    /\ SimSirModel.beta m
       = (get_growth_rate (Some 1) + Locals.gamma l) / Locals.susceptible l
    /\ run_projection (Locals.rates l) (Locals.lengths_of_stay l)
                      (Locals.susceptible l) (Locals.self_infected l)
                      (SimSirModel.beta m) (Locals.gamma l) 0 example_doubling
       = Ok proj1
    /\ get_argmin_ds (Projection.census_df proj1) 2 = Ok (SimSirModel.i_day m)
    /\ run_projection (Locals.rates l) (Locals.lengths_of_stay l)
                      (Locals.susceptible l) (Locals.self_infected l)
                      (SimSirModel.beta m) (Locals.gamma l)
                      (SimSirModel.i_day m) example_doubling
       = Ok (SimSirModel.projection m)
    /\ sim_sir_df (Locals.susceptible l) (Locals.self_infected l)
                  0 (SimSirModel.beta m) (Locals.gamma l)
                  (2 + SimSirModel.i_day m)%Z (- SimSirModel.i_day m)%Z
       = Ok (Projection.raw_df (SimSirModel.projection m)).
Proof.
  destruct (init example_doubling) as [[m p'] | e] eqn:E.
  - destruct (doubling_mode_projections_share_beta
                example_doubling 1 m p' E eq_refl eq_refl)
      as (l & proj1 & Hrest).
    exists m, p', l, proj1. split; [reflexivity | exact Hrest].
  - pose proof init_example_doubling_ok as Hok.
    rewrite E in Hok. discriminate.
Defined.

(** C3 as stated fails on [example_doubling] (relative contact rate
    3/10): the final raw trajectory is not the one generated with the
    discounted beta = (growth_rate + gamma) / susceptible * (1 - 3/10). *)
Lemma final_projection_beta_counterexample :
  exists m p' l,
    init example_doubling = Ok (m, p')
    /\ derive example_doubling = Ok l
    /\ sim_sir_df (Locals.susceptible l) (Locals.self_infected l)
                  (Parameters.recovered example_doubling)
                  ((Locals.intrinsic_growth_rate l + Locals.gamma l)
                   / Locals.susceptible l
                   * (1 - Parameters.relative_contact_rate example_doubling))
                  (Locals.gamma l)
                  (Parameters.n_days example_doubling + SimSirModel.i_day m)%Z
                  (- SimSirModel.i_day m)%Z
       <> Ok (Projection.raw_df (SimSirModel.projection m)).
Proof.
  destruct (init example_doubling) as [[m p'] | e] eqn:E.
  2: { pose proof init_example_doubling_ok as Hok.
       rewrite E in Hok. discriminate. }
  apply init_inv in E. destruct E as (l & Hd & Hbr).
  destruct Hbr as [(_ & _ & Hb) | (d & Hdate & _)]; [| discriminate].
  apply doubling_time_branch_inv in Hb.
  destruct Hb as (_ & Hbeta & _ & _ & _ & proj1 & _ & Harg & Hrun2).
  apply run_projection_inv in Hrun2. destruct Hrun2 as (Hsim & _).
  apply get_argmin_ds_lower_bound in Harg.
  exists m, p', l. split; [reflexivity |]. split; [exact Hd |].
  rewrite Hbeta in Hsim.
  vm_compute in Hd. injection Hd as <-.
  intros Hclaim.
  assert (HN : (1 <= Parameters.n_days example_doubling + SimSirModel.i_day m)%Z).
  { change (Parameters.n_days example_doubling) with 2%Z. lia. }
  pose proof (fun Hn => sim_sir_df_same_rows _ _ _ _ _ _ _ _ _ HN
                          Hn Hsim Hclaim) as Hsame.
  assert (Habs := Hsame ltac:(intros X; vm_compute in X; discriminate X)).
  vm_compute in Habs. discriminate.
Qed.

(** ** C7: a non-positive argument of the logarithm *)

Lemma Qinv_nonzero (x : Q) : ~ x == 0 -> ~ 1 / x == 0.
Proof.
  intros Hx Hinv. apply Hx.
  setoid_replace x with (x * x * (1 / x)) by (field; exact Hx).
  rewrite Hinv. ring.
Qed.

(** The value line 84 computes for a non-positive argument. *)
Lemma reciprocal_log2_nonpositive `{Platform} (x : Q) :
  (x < 0 -> np_reciprocal (np_log2 x) = NaN)
  /\ (x == 0 -> np_reciprocal (np_log2 x) = Fin 0).
Proof.
  unfold np_log2. split; intros Hx.
  - destruct (Qlt_le_dec x 0) as [_ | Hge]; [reflexivity |].
    exfalso. apply (Qlt_irrefl x). eapply Qlt_le_trans; eassumption.
  - destruct (Qlt_le_dec x 0) as [Hlt | _].
    + rewrite Hx in Hlt. discriminate.
    + rewrite (Qeq_eq_bool _ _ Hx). reflexivity.
Qed.

(** The model keeps the effective doubling time of [derive] and feeds it
    to [get_growth_rate] (line 151). *)
Lemma init_doubling_time_t `{Platform}
  (p : Parameters.t) (m : SimSirModel.t) (p' : Parameters.t) :
  init p = Ok (m, p') ->
  exists l,
    derive p = Ok l
    /\ SimSirModel.doubling_time_t m = Locals.doubling_time_t l
    /\ SimSirModel.daily_growth_rate_t m
       = get_growth_rate_np (Locals.doubling_time_t l).
Proof.
  intros Hi. apply init_inv in Hi. destruct Hi as (l & Hd & Hbr).
  exists l. split; [exact Hd |].
  destruct Hbr as [(_ & _ & Hb) | (d & _ & _ & Hb)].
  - unfold doubling_time_branch in Hb. repeat inv_bind Hb.
    injection Hb as <- _. split; reflexivity.
  - unfold date_first_hospitalized_branch in Hb. repeat inv_bind Hb.
    injection Hb as <- _. split; reflexivity.
Qed.

(** C7 (amended): whenever its divisions are defined, the derivation of
    the rates completes, whatever the sign of
    beta * susceptible - gamma + 1: no check guards the logarithm.  For a
    negative argument the effective doubling time is NaN, for a zero
    argument it is 1 / -inf = 0. *)
Theorem nonpositive_log2_argument_is_silent `{Platform} (p : Parameters.t) :
  0 <= EPSILON ->
  ~ Parameters.market_share p == 0 ->
  ~ Disposition.rate (Parameters.hospitalized p) == 0 ->
  ~ Parameters.infectious_days p == 0 ->
  ~ Parameters.population p
    - Parameters.current_hospitalized p / Parameters.market_share p
      / Disposition.rate (Parameters.hospitalized p) == 0 ->
  Parameters.known_infected p <> None ->
  exists l,
    derive p = Ok l
    /\ (log2_argument l < 0 -> Locals.doubling_time_t l = NaN)
    /\ (log2_argument l == 0 -> Locals.doubling_time_t l = Fin 0).
Proof.
  intros Heps Hms Hrate Hdays Hsus Hknown.
  assert (Hd : exists l, derive p = Ok l).
  { unfold derive.
    rewrite (fdiv_ok _ _ Hms). cbn [bind].
    rewrite (fdiv_ok _ _ Hrate). cbn [bind].
    set (infected := Parameters.current_hospitalized p / Parameters.market_share p
                     / Disposition.rate (Parameters.hospitalized p)) in *.
    assert (Hdet : exists dp,
               (if Qlt_le_dec EPSILON infected
                then match Parameters.known_infected p with
                     | Some k => q <- fdiv k infected ;; Ok (Some q)
                     | None => Raise TypeError
                     end
                else Ok None) = Ok dp).
    { destruct (Qlt_le_dec EPSILON infected) as [Hlt | _]; [| eauto].
      destruct (Parameters.known_infected p) as [k |]; [| contradiction].
      rewrite fdiv_ok; [cbn [bind]; eauto |].
      intros E. rewrite E in Hlt.
      apply (Qlt_irrefl 0). eapply Qle_lt_trans; eassumption. }
    destruct Hdet as (dp & ->). cbn [bind].
    rewrite (fdiv_ok _ _ Hdays). cbn [bind].
    rewrite (fdiv_ok _ _ Hsus). cbn [bind].
    rewrite (fdiv_ok _ _ (Qinv_nonzero _ Hdays)). cbn [bind].
    rewrite (fdiv_ok _ _ (Qinv_nonzero _ Hdays)). cbn [bind].
    rewrite (fdiv_ok _ _ Hrate). cbn [bind].
    rewrite (fdiv_ok _ _ Hms). cbn [bind].
    eauto. }
  destruct Hd as (l & Hd). exists l. split; [exact Hd |].
  apply derive_inv in Hd.
  destruct Hd as (_ & _ & _ & _ & _ & _ & _ & Hdtt & _).
  rewrite Hdtt. apply reciprocal_log2_nonpositive.
Qed.

Lemma nonpositive_log2_argument_is_silent_witness :
  exists l,
    derive example_unphysical = Ok l
    /\ (log2_argument l < 0 -> Locals.doubling_time_t l = NaN)
    /\ (log2_argument l == 0 -> Locals.doubling_time_t l = Fin 0).
Proof.
  apply (nonpositive_log2_argument_is_silent example_unphysical);
    intros X; vm_compute in X; discriminate X.
Defined.

(** C7 as stated fails on [example_unphysical]: the argument of the
    logarithm is -2/5, construction completes, and the model carries
    NaN as its effective doubling time and as the growth rate derived
    from it. *)
Lemma nonpositive_log2_argument_counterexample :
  exists m p' l,
    init example_unphysical = Ok (m, p')
    /\ derive example_unphysical = Ok l
    /\ log2_argument l == - (2 # 5)
    /\ SimSirModel.doubling_time_t m = NaN
    /\ SimSirModel.daily_growth_rate_t m = NaN.
Proof.
  destruct (init example_unphysical) as [[m p'] | e] eqn:E.
  2: { pose proof init_example_unphysical_ok as Hok.
       rewrite E in Hok. discriminate. }
  destruct (init_doubling_time_t _ _ _ E) as (l & Hd & Hdtt & Hgr).
  exists m, p', l.
  split; [reflexivity |]. split; [exact Hd |].
  rewrite Hdtt, Hgr.
  vm_compute in Hd. injection Hd as <-.
  repeat split.
Qed.

(** ** C8: the calibration loop *)

Lemma nth_error_middle {A : Type} (pre : list A) (c : A) (t : list A) :
  nth_error (pre ++ c :: t) (length pre) = Some c.
Proof.
  rewrite nth_error_app2 by lia. now rewrite Nat.sub_diag.
Qed.

Lemma argmin_scan_ok (L : list cell) :
  forall (l pre : list cell) (best : option (nat * Q)),
    L = pre ++ l ->
    scan_ok L (length pre) best ->
    scan_ok L (length L) (argmin_scan best (length pre) l).
Proof.
  induction l as [| c t IH]; intros pre best HL Hok.
  - simpl. subst L. now rewrite app_nil_r in *.
  - assert (HL' : L = (pre ++ [c]) ++ t) by (now rewrite <- app_assoc).
    assert (Hlen : length (pre ++ [c]) = S (length pre))
      by (rewrite length_app; simpl; lia).
    assert (Hc : nth_error L (length pre) = Some c)
      by (rewrite HL; apply nth_error_middle).
    simpl. rewrite <- Hlen.
    destruct c as [x |].
    + destruct best as [[j y] |].
      * destruct Hok as (Hj & Hy & Hmin).
        destruct (Qlt_le_dec x y) as [Hlt | Hle];
          apply (IH _ _ HL'); rewrite Hlen; simpl.
        -- split; [lia |]. split; [exact Hc |].
           intros i x' Hi Hx'.
           destruct (Nat.eq_dec i (length pre)) as [-> | Hne].
           ++ rewrite Hc in Hx'. injection Hx' as <-.
              split; [apply Qle_refl | lia].
           ++ destruct (Hmin i x' ltac:(lia) Hx') as [Hyx _].
              assert (x < x') by (eapply Qlt_le_trans; eassumption).
              split; [now apply Qlt_le_weak | auto].
        -- split; [lia |]. split; [exact Hy |].
           intros i x' Hi Hx'.
           destruct (Nat.eq_dec i (length pre)) as [-> | Hne].
           ++ rewrite Hc in Hx'. injection Hx' as <-.
              split; [exact Hle | lia].
           ++ apply Hmin; [lia | exact Hx'].
      * apply (IH _ _ HL'). rewrite Hlen. simpl in *.
        split; [lia |]. split; [exact Hc |].
        intros i x' Hi Hx'.
        destruct (Nat.eq_dec i (length pre)) as [-> | Hne].
        -- rewrite Hc in Hx'. injection Hx' as <-.
           split; [apply Qle_refl | lia].
        -- exfalso. apply (Hok i x'); [lia | exact Hx'].
    + apply (IH _ _ HL'). rewrite Hlen.
      destruct best as [[j y] |]; simpl in *.
      * destruct Hok as (Hj & Hy & Hmin).
        split; [lia |]. split; [exact Hy |].
        intros i x' Hi Hx'.
        destruct (Nat.eq_dec i (length pre)) as [-> | Hne].
        -- rewrite Hc in Hx'. discriminate.
        -- apply Hmin; [lia | exact Hx'].
      * intros i x' Hi Hx'.
        destruct (Nat.eq_dec i (length pre)) as [-> | Hne].
        -- rewrite Hc in Hx'. discriminate.
        -- apply (Hok i x'); [lia | exact Hx'].
Qed.

(** [Series.argmin] returns the first position of the minimum of the
    non-NaN cells, or -1 when every cell is NaN. *)
Lemma argmin_spec (L : list cell) (z : Z) :
  argmin L = Ok z ->
  (z = (-1)%Z /\ forall i x, nth_error L i <> Some (Some x))
  \/ exists j y,
       z = Z.of_nat j
       /\ (j < length L)%nat
       /\ nth_error L j = Some (Some y)
       /\ forall i x, nth_error L i = Some (Some x) ->
                      y <= x /\ ((i < j)%nat -> y < x).
Proof.
  unfold argmin. intros Ha.
  assert (Hok : scan_ok L (length L) (argmin_scan None 0 L)).
  { apply (argmin_scan_ok L L [] None); [reflexivity |].
    simpl. intros i x Hi. lia. }
  destruct L as [| c t]; [discriminate |].
  destruct (argmin_scan None 0 (c :: t)) as [[j y] |].
  - right. injection Ha as <-. destruct Hok as (Hj & Hy & Hmin).
    exists j, y. repeat split; try assumption.
    + apply (Hmin i x); [| assumption].
      apply nth_error_Some. congruence.
    + apply (Hmin i x); [| assumption].
      apply nth_error_Some. congruence.
  - left. injection Ha as <-. split; [reflexivity |].
    intros i x Hx. apply (Hok i x); [| exact Hx].
    apply nth_error_Some. congruence.
Qed.

Lemma dts_length : length dts = 29%nat.
Proof. reflexivity. Qed.

Lemma dts_nth (k : nat) (x : Q) :
  nth_error dts k = Some x -> x == 1 + inject_Z (Z.of_nat k) * (1 # 2).
Proof.
  unfold dts, linspace. rewrite nth_error_map, nth_error_seq.
  destruct (k <? 29)%nat; [| discriminate].
  simpl. intros [= <-].
  apply Qplus_comp; [reflexivity |].
  apply Qmult_comp; reflexivity.
Qed.



(** ** C4: the rates the model exposes in date mode *)

(** In date mode the constructor re-derives [intrinsic_growth_rate] from
    the fitted doubling time, but [beta], [r_t], [r_naught] and
    [doubling_time_t] are assigned from the locals of lines 72-85, which
    were computed with a growth rate of zero before the loop ran: whatever
    the fit, [r_naught] is 1. *)
Lemma date_mode_stale_rates `{Platform}
  (p : Parameters.t) (d : Z) (m : SimSirModel.t) (p' : Parameters.t) :
  init p = Ok (m, p') ->
  Parameters.date_first_hospitalized p = Some d ->
  Parameters.doubling_time p = None ->
  exists l,
    derive p = Ok l
    /\ Locals.intrinsic_growth_rate l = 0
    /\ SimSirModel.intrinsic_growth_rate m
       = get_growth_rate (Parameters.doubling_time p')
    /\ SimSirModel.beta m = Locals.beta l
    /\ SimSirModel.r_t m = Locals.r_t l
    /\ SimSirModel.r_naught m = Locals.r_naught l
    /\ SimSirModel.doubling_time_t m = Locals.doubling_time_t l
    /\ SimSirModel.r_naught m == 1.
Proof.
  intros Hi Hdate Hdt.
  apply init_inv in Hi. destruct Hi as (l & Hd & Hbr).
  destruct Hbr as [(Hdate' & _) | (d' & _ & _ & Hb)].
  { rewrite Hdate in Hdate'. discriminate. }
  apply date_first_hospitalized_branch_inv in Hb.
  destruct Hb as (losses & z & dt & fb & _ & _ & _ & -> & _ & _ & _
                  & Hg & Hbeta & Hrt & Hr0 & Hdtt).
  exists l. split; [exact Hd |].
  apply derive_inv in Hd.
  destruct Hd as (_ & _ & Hg0 & _ & _ & _ & Hr0l & _ & _ & _ & Hgamma).
  rewrite Hdt in Hg0. simpl in Hg0.
  repeat split; try assumption.
  rewrite Hr0, Hr0l, Hg0. field. exact Hgamma.
Qed.

(** C4, evaluated on [example_date]: the calibration fits a doubling time
    of 1 day and the model exposes the growth rate re-derived from it
    (2 ** 1 - 1 = 1), but [r_naught] = 1, [beta] = 1/16800 and
    [r_t] = 7/10 are the values computed before the calibration ran; they
    differ from the rates that follow from the fitted growth rate
    (15, 1/1120 and 21/2). *)
Theorem date_mode_rates_are_stale :
  exists m p' dt,
    init example_date = Ok (m, p')
    /\ Parameters.doubling_time p' = Some dt
    /\ dt == 1
    /\ SimSirModel.intrinsic_growth_rate m == 1
    /\ SimSirModel.r_naught m == 1
    /\ ~ SimSirModel.r_naught m
         == (SimSirModel.intrinsic_growth_rate m + SimSirModel.gamma m)
            / SimSirModel.gamma m
    /\ SimSirModel.beta m == 1 # 16800
    /\ ~ SimSirModel.beta m
         == (SimSirModel.intrinsic_growth_rate m + SimSirModel.gamma m)
            / SimSirModel.susceptible m
            * (1 - Parameters.relative_contact_rate example_date)
    /\ SimSirModel.r_t m == 7 # 10
    /\ ~ SimSirModel.r_t m
         == (SimSirModel.intrinsic_growth_rate m + SimSirModel.gamma m)
            / SimSirModel.susceptible m
            * (1 - Parameters.relative_contact_rate example_date)
            / SimSirModel.gamma m * SimSirModel.susceptible m.
Proof.
  pose proof init_example_date_rates as Hcheck.
  destruct (init example_date) as [[m p'] | e] eqn:E; [| discriminate].
  simpl in Hcheck.
  destruct (Parameters.doubling_time p') as [dt |] eqn:Edt; [| discriminate].
  apply andb_prop in Hcheck. destruct Hcheck as [Hcheck Hrt].
  apply andb_prop in Hcheck. destruct Hcheck as [Hcheck Hbeta].
  apply andb_prop in Hcheck. destruct Hcheck as [Hcheck Hr0].
  apply andb_prop in Hcheck. destruct Hcheck as [Hcheck Hsus].
  apply andb_prop in Hcheck. destruct Hcheck as [Hcheck Hgamma].
  apply andb_prop in Hcheck. destruct Hcheck as [Hdt Hg].
  apply Qeq_bool_iff in Hrt, Hbeta, Hr0, Hsus, Hgamma, Hdt, Hg.
  exists m, p', dt.
  repeat split; try assumption; try reflexivity.
  - rewrite Hr0, Hg, Hgamma. discriminate.
  - rewrite Hbeta, Hg, Hgamma, Hsus. discriminate.
  - rewrite Hrt, Hg, Hgamma, Hsus. discriminate.
Qed.

(** ** The census of the admission tables the pipeline produces

    [build_admits_df] leaves NaN in the first and in the last row.  With a
    length of stay [L >= 1] the census stage never reads the last row, and
    the NaN of the first row only makes census row 0 NaN: over the [D - 1]
    days that have a predecessor the census has [D - 1 - L] valid rows. *)






(** * Further properties of the code *)

(** ** [sir] and [gen_sir] on arbitrary input *)

Lemma sir_inv (s i r beta gamma n s' i' r' : Q) :
  sir s i r beta gamma n = Ok (s', i', r') ->
  ~ s + i + r == 0 /\ s' + i' + r' == n.
Proof.
  unfold sir. intros Hs. invert_bind Hs as scale Hscale.
  apply fdiv_inv in Hscale. destruct Hscale as [Hden ->].
  injection Hs as <- <- <-.
  pose proof (sir_raw_sum s i r beta gamma) as Hraw.
  split.
  - now rewrite <- Hraw.
  - field_simplify_eq; [ring | exact Hden].
Qed.

Lemma gen_sir_loop_days (k : nat) (beta gamma n : Q) :
  forall (d : Z) (s i r : Q) (rows : list RawRow),
    gen_sir_loop k d s i r beta gamma n = Ok rows ->
    length rows = S k
    /\ forall j row, nth_error rows j = Some row ->
                     row_day row = (d + Z.of_nat j)%Z.
Proof.
  induction k as [| k IH]; intros d s i r rows Hg; simpl in Hg.
  - injection Hg as <-. split; [reflexivity |].
    intros [| j] row Hrow; simpl in Hrow.
    + injection Hrow as <-. simpl. lia.
    + destruct j; discriminate.
  - invert_bind Hg as [[s1 i1] r1] Hstep. invert_bind Hg as rest Hrest.
    injection Hg as <-.
    destruct (IH _ _ _ _ _ Hrest) as [Hlen Hdays].
    split; [simpl; now rewrite Hlen |].
    intros [| j] row Hrow; simpl in Hrow.
    + injection Hrow as <-. simpl. lia.
    + rewrite (Hdays j row Hrow). lia.
Qed.

Lemma gen_sir_loop_sums (k : nat) (beta gamma n : Q) :
  forall (d : Z) (s i r : Q) (rows : list RawRow),
    gen_sir_loop k d s i r beta gamma n = Ok rows ->
    s + i + r == n ->
    Forall (fun row =>
              row_susceptible row + row_infected row + row_recovered row == n)
           rows.
Proof.
  induction k as [| k IH]; intros d s i r rows Hg Hsum; simpl in Hg.
  - injection Hg as <-. constructor; [exact Hsum | constructor].
  - invert_bind Hg as [[s1 i1] r1] Hstep. invert_bind Hg as rest Hrest.
    injection Hg as <-.
    constructor; [exact Hsum |].
    apply (IH _ _ _ _ _ Hrest).
    now apply sir_inv in Hstep.
Qed.

(** X1: a trajectory that [gen_sir] completes has [n_days + 1] rows (one
    row when [n_days] is negative), starts with the state it was given
    and numbers its days consecutively from [i_day]. *)
Theorem gen_sir_rows
  (s i r beta gamma : Q) (n_days i_day : Z) (rows : list RawRow) :
  gen_sir s i r beta gamma n_days i_day = Ok rows ->
  length rows = S (Z.to_nat n_days)
  /\ nth_error rows 0 = Some (mkRawRow i_day s i r)
  /\ forall j row, nth_error rows j = Some row ->
                   row_day row = (i_day + Z.of_nat j)%Z.
Proof.
  unfold gen_sir. intros Hg.
  destruct (gen_sir_loop_days _ _ _ _ _ _ _ _ _ Hg) as [Hlen Hdays].
  destruct (gen_sir_loop_head _ _ _ _ _ _ _ _ _ Hg) as (rest & ->).
  repeat split; assumption.
Qed.

Lemma gen_sir_rows_witness :
  exists rows,
    gen_sir 990 10 0 (1 # 4000) (1 # 14) (-3) 5 = Ok rows
    /\ length rows = S (Z.to_nat (-3))
    /\ nth_error rows 0 = Some (mkRawRow 5 990 10 0)
    /\ forall j row, nth_error rows j = Some row ->
                     row_day row = (5 + Z.of_nat j)%Z.
Proof.
  exists [mkRawRow 5 990 10 0].
  split; [reflexivity |].
  exact (gen_sir_rows 990 10 0 (1 # 4000) (1 # 14) (-3) 5 _ eq_refl).
Defined.

(** X2: whatever target [n] it is given, [sir] succeeds on a state whose
    compartments do not sum to zero, and its result sums to [n]: the
    rescaling imposes the target total even when the input state does not
    have it. *)
Theorem sir_sums_to_target (s i r beta gamma n : Q) :
  ~ s + i + r == 0 ->
  exists s' i' r',
    sir s i r beta gamma n = Ok (s', i', r') /\ s' + i' + r' == n.
Proof.
  intros Hnz.
  assert (Hden : ~ sir_s_n s i r beta gamma + sir_i_n s i r beta gamma
                   + sir_r_n s i r beta gamma == 0)
    by (now rewrite sir_raw_sum).
  unfold sir. rewrite (fdiv_ok _ _ Hden). cbn [bind].
  do 3 eexists. split; [reflexivity |].
  field_simplify_eq; [ring | exact Hden].
Qed.

Lemma sir_sums_to_target_witness :
  exists s' i' r',
    sir 5 3 2 (1 # 10) (1 # 2) 100 = Ok (s', i', r') /\ s' + i' + r' == 100.
Proof.
  apply (sir_sums_to_target 5 3 2 (1 # 10) (1 # 2) 100). discriminate.
Defined.

(** X3: on a state whose compartments sum to zero, [sir] divides by zero,
    whatever the rates and the target total. *)
Theorem sir_zero_total (s i r beta gamma n : Q) :
  s + i + r == 0 -> sir s i r beta gamma n = Raise ZeroDivisionError.
Proof.
  intros Hz. unfold sir.
  assert (Hden : sir_s_n s i r beta gamma + sir_i_n s i r beta gamma
                 + sir_r_n s i r beta gamma == 0)
    by (now rewrite sir_raw_sum).
  unfold fdiv. now rewrite (Qeq_eq_bool _ _ Hden).
Qed.

Lemma sir_zero_total_witness :
  sir 0 0 0 (1 # 10) (1 # 2) 1000 = Raise ZeroDivisionError.
Proof. apply sir_zero_total. reflexivity. Defined.

(** X4: [sir] does not clamp.  When the new infections [beta * s * i] of a
    day exceed the susceptible population, the susceptible compartment it
    returns is negative. *)
Theorem sir_negative_susceptible (s i r beta gamma n : Q) :
  s + i + r == n -> ~ n == 0 -> s < beta * s * i ->
  exists s' i' r',
    sir s i r beta gamma n = Ok (s', i', r') /\ s' < 0.
Proof.
  intros Hn Hnz Hover.
  destruct (sir_conserves s i r beta gamma n Hn Hnz) as (s' & i' & r' & Hs & _).
  exists s', i', r'. split; [exact Hs |].
  rewrite (sir_susceptible _ _ _ _ _ _ _ _ _ Hn Hnz Hs).
  apply (Qplus_lt_l _ _ (beta * s * i)).
  setoid_replace (s - beta * s * i + beta * s * i) with s by ring.
  setoid_replace (0 + beta * s * i) with (beta * s * i) by ring.
  exact Hover.
Qed.

Lemma sir_negative_susceptible_witness :
  exists s' i' r',
    sir 7 2 1 1 (1 # 2) 10 = Ok (s', i', r') /\ s' < 0.
Proof.
  apply (sir_negative_susceptible 7 2 1 1 (1 # 2) 10);
    [reflexivity | discriminate | reflexivity].
Defined.

Lemma sir_disease_free (s i r beta gamma n s0 r0 : Q) :
  s == s0 -> i == 0 -> r == r0 -> n == s0 + r0 -> ~ n == 0 ->
  exists s' i' r',
    sir s i r beta gamma n = Ok (s', i', r')
    /\ s' == s0 /\ i' == 0 /\ r' == r0.
Proof.
  intros Hs Hi Hr Hn Hnz.
  assert (Hsum : s + i + r == n) by (rewrite Hs, Hi, Hr, Hn; ring).
  pose proof (sir_raw_sum s i r beta gamma) as Hraw.
  assert (Hden : ~ sir_s_n s i r beta gamma + sir_i_n s i r beta gamma
                   + sir_r_n s i r beta gamma == 0)
    by (now rewrite Hraw, Hsum).
  assert (Hscale : n / (sir_s_n s i r beta gamma + sir_i_n s i r beta gamma
                        + sir_r_n s i r beta gamma) == 1).
  { rewrite Hraw, Hsum. field. exact Hnz. }
  unfold sir. rewrite (fdiv_ok _ _ Hden). cbn [bind].
  do 3 eexists. split; [reflexivity |].
  rewrite !Hscale. unfold sir_s_n, sir_i_n, sir_r_n.
  rewrite Hs, Hi, Hr. repeat split; ring.
Qed.

Lemma gen_sir_loop_disease_free (k : nat) (beta gamma n s0 r0 : Q) :
  n == s0 + r0 -> ~ n == 0 ->
  forall (d : Z) (s i r : Q),
    s == s0 -> i == 0 -> r == r0 ->
    exists rows,
      gen_sir_loop k d s i r beta gamma n = Ok rows
      /\ Forall (fun row => row_susceptible row == s0
                            /\ row_infected row == 0
                            /\ row_recovered row == r0) rows.
Proof.
  intros Hn Hnz. induction k as [| k IH]; intros d s i r Hs Hi Hr.
  - eexists. split; [reflexivity |].
    constructor; [simpl; auto | constructor].
  - destruct (sir_disease_free s i r beta gamma n s0 r0 Hs Hi Hr Hn Hnz)
      as (s' & i' & r' & Hstep & Hs' & Hi' & Hr').
    destruct (IH (d + 1)%Z s' i' r' Hs' Hi' Hr') as (rest & Hrest & Hall).
    exists (mkRawRow d s i r :: rest). simpl.
    rewrite Hstep. cbn [bind]. rewrite Hrest. cbn [bind].
    split; [reflexivity |].
    constructor; [simpl; auto | exact Hall].
Qed.

(** X5: a population without infected is a fixed point.  From a state with
    [i = 0] and a non-zero total, [gen_sir] succeeds for any rates and any
    horizon, and every row repeats the initial state. *)
Theorem gen_sir_disease_free
  (s r beta gamma : Q) (n_days i_day : Z) :
  ~ s + r == 0 ->
  exists rows,
    gen_sir s 0 r beta gamma n_days i_day = Ok rows
    /\ Forall (fun row => row_susceptible row == s
                          /\ row_infected row == 0
                          /\ row_recovered row == r) rows.
Proof.
  intros Hnz. unfold gen_sir.
  apply gen_sir_loop_disease_free; try reflexivity.
  - ring.
  - intros E. apply Hnz. rewrite <- E. ring.
Qed.

Lemma gen_sir_disease_free_witness :
  exists rows,
    gen_sir 1000 0 0 (1 # 4000) (1 # 14) 60 0 = Ok rows
    /\ Forall (fun row => row_susceptible row == 1000
                          /\ row_infected row == 0
                          /\ row_recovered row == 0) rows.
Proof.
  apply (gen_sir_disease_free 1000 0 (1 # 4000) (1 # 14) 60 0). discriminate.
Defined.

(** ** The census stage on arbitrary columns *)

Lemma cumsum_from_nan (col : list cell) :
  forall (acc : Q) (k : nat),
    nth_error col k = Some None ->
    nth_error (cumsum_from acc col) k = Some None.
Proof.
  induction col as [| c t IH]; intros acc k Hk; [destruct k; discriminate |].
  destruct k as [| k]; simpl in Hk.
  - injection Hk as ->. reflexivity.
  - destruct c as [x |]; simpl; now apply IH.
Qed.

Lemma iloc_to_minus_length_le (los : nat) (l : list cell) :
  (length (iloc_to_minus los l) <= length l)%nat.
Proof.
  destruct los as [| los]; simpl; [lia |].
  rewrite length_firstn. lia.
Qed.

Lemma census_column_length (los : nat) (col : list cell) :
  length (census_column los col) = length col.
Proof.
  unfold census_column.
  rewrite length_map, series_sub_length, fillna_length, shift_length.
  pose proof (iloc_to_minus_length_le los (cumsum col)) as Hle.
  unfold cumsum in *. rewrite cumsum_from_length in *. lia.
Qed.

(** X6: a census row is NaN whenever the length of stay is 0 (the slice
    [iloc[:-0]] is empty, so the whole column is NaN), whenever the row is
    one of the last [los] rows, and whenever the admission of that day is
    NaN. *)
Theorem census_nan_rows (los : nat) (col : list cell) (k : nat) :
  (k < length col)%nat ->
  los = 0%nat \/ (length col - los <= k)%nat \/ nth_error col k = Some None ->
  nth_error (census_column los col) k = Some None.
Proof.
  intros Hk Hcase. unfold census_column, series_sub.
  rewrite nth_error_map, nth_error_map, nth_error_seq.
  assert (Hmax : Nat.max (length (iloc_to_minus los (cumsum col)))
                         (length (fillna 0 (shift los (cumsum col))))
                 = length col).
  { rewrite fillna_length, shift_length.
    pose proof (iloc_to_minus_length_le los (cumsum col)) as Hle.
    unfold cumsum in *. rewrite cumsum_from_length in *. lia. }
  rewrite Hmax.
  destruct (Nat.ltb_spec k (length col)) as [_ | Hge]; [| lia].
  cbn [option_map Nat.add].
  assert (Hleft : nth_error (iloc_to_minus los (cumsum col)) k = None
                  \/ nth_error (iloc_to_minus los (cumsum col)) k = Some None).
  { destruct los as [| los].
    - left. simpl. now destruct k.
    - rewrite iloc_to_minus_nth by lia.
      assert (Hcs : length (cumsum col) = length col)
        by (unfold cumsum; apply cumsum_from_length).
      rewrite Hcs.
      destruct (Nat.ltb_spec k (length col - S los)) as [Hlt | Hge];
        [| now left].
      right. destruct Hcase as [H0 | [Htail | Hnan]]; [discriminate | lia |].
      now apply cumsum_from_nan. }
  destruct Hleft as [-> | ->]; [reflexivity |].
  now destruct (nth_error (fillna 0 (shift los (cumsum col))) k).
Qed.

Lemma census_nan_rows_witness :
  nth_error (census_column 0 [Some 2; Some 3; Some 5]) 1 = Some None.
Proof.
  apply census_nan_rows; [simpl; lia | now left].
Defined.

(** X7: [build_census_df] raises [KeyError] as soon as one category of
    [lengths_of_stay] has no column in the admission table, wherever the
    category stands in the dictionary. *)
Theorem build_census_df_missing_key
  (admits_df : Frame) (lengths_of_stay : list (string * nat))
  (key : string) (L : nat) :
  In (key, L) lengths_of_stay ->
  lookup key (columns admits_df) = None ->
  build_census_df admits_df lengths_of_stay = Raise KeyError.
Proof.
  intros Hin Hmiss. unfold build_census_df.
  assert (Hm : mapM (fun '(key, los) =>
                       col <- getitem admits_df key ;;
                       Ok (key, census_column los col))
                    lengths_of_stay = Raise KeyError).
  { induction lengths_of_stay as [| [k0 l0] t IH]; [contradiction |].
    cbn [mapM]. unfold getitem at 1.
    destruct (lookup k0 (columns admits_df)) as [c0 |] eqn:Hc0;
      [| reflexivity].
    cbn [bind]. rewrite IH; [reflexivity |].
    destruct Hin as [[= -> ->] | Hin]; [congruence | exact Hin]. }
  now rewrite Hm.
Qed.

Lemma build_census_df_missing_key_witness :
  build_census_df
    (mkFrame [0; 1]%Z [100; 101]%Z
             [("hospitalized"%string, [None; Some 2])])
    [("hospitalized"%string, 7%nat); ("icu"%string, 9%nat)]
  = Raise KeyError.
Proof.
  apply (build_census_df_missing_key _ _ "icu"%string 9%nat).
  - right. now left.
  - reflexivity.
Defined.

(** ** The three stages together *)

Lemma lookup_of_key {A : Type} (key : string) (d : list (string * A)) :
  In key (map fst d) -> exists v, lookup key d = Some v /\ In (key, v) d.
Proof.
  induction d as [| [k v] t IH]; intros Hin; [contradiction |].
  simpl. destruct (String.eqb key k) eqn:E.
  - apply String.eqb_eq in E. subst k. exists v. split; [reflexivity | now left].
  - destruct Hin as [Hk | Hin].
    + simpl in Hk. subst k. rewrite String.eqb_refl in E. discriminate.
    + destruct (IH Hin) as (v' & Hl & Hin'). exists v'. split; [exact Hl | now right].
Qed.

Lemma mapM_census_shape (admits_df : Frame) (n : nat) :
  Forall (fun kc => length (snd kc) = n) (columns admits_df) ->
  forall lengths_of_stay : list (string * nat),
    (forall k, In k (map fst lengths_of_stay) ->
               In k (map fst (columns admits_df))) ->
    exists cols,
      mapM (fun '(key, los) =>
              col <- getitem admits_df key ;;
              Ok (key, census_column los col))
           lengths_of_stay = Ok cols
      /\ map fst cols = map fst lengths_of_stay
      /\ Forall (fun kc => length (snd kc) = n) cols.
Proof.
  intros Hlen. induction lengths_of_stay as [| [k0 l0] t IH]; intros Hkeys.
  - exists []. repeat split. constructor.
  - destruct IH as (cols & Hcols & Hfst & Hall).
    { intros k Hk. apply Hkeys. now right. }
    destruct (lookup_of_key k0 (columns admits_df)) as (c0 & Hc0 & Hin0).
    { apply Hkeys. now left. }
    exists ((k0, census_column l0 c0) :: cols).
    cbn [mapM]. unfold getitem at 1. rewrite Hc0. cbn [bind].
    rewrite Hcols. cbn [bind].
    split; [reflexivity |]. split; [simpl; now rewrite Hfst |].
    constructor; [| exact Hall].
    simpl. rewrite census_column_length.
    rewrite Forall_forall in Hlen. exact (Hlen _ Hin0).
Qed.

(** X8: on the tables the model builds for itself, where the rates and the
    lengths of stay come from the same dictionary of dispositions, the
    census stage never raises, and the three frames stay aligned with the
    raw trajectory: same [day] column, the [date] column is the day plus
    the current date, the census has the categories of the dictionary in
    its order, and every float column of every frame has one cell per row
    of the trajectory. *)
Theorem pipeline_frames_aligned
  (raw_df : list RawRow) (dispositions : list (string * Disposition.t))
  (market_share : Q) (current_date : Z) :
  let rates := map (fun '(key, d) => (key, Disposition.rate d)) dispositions in
  let lengths_of_stay :=
    map (fun '(key, d) => (key, Disposition.length_of_stay d)) dispositions in
  let dispositions_df :=
    build_dispositions_df raw_df rates market_share current_date in
  let admits_df := build_admits_df dispositions_df in
  exists census_df,
    build_census_df admits_df lengths_of_stay = Ok census_df
    /\ day dispositions_df = map row_day raw_df
    /\ day admits_df = map row_day raw_df
    /\ day census_df = map row_day raw_df
    /\ date census_df = map (fun row => (row_day row + current_date)%Z) raw_df
    /\ map fst (columns census_df) = map fst dispositions
    /\ Forall (fun kc => length (snd kc) = length raw_df) (columns dispositions_df)
    /\ Forall (fun kc => length (snd kc) = length raw_df) (columns admits_df)
    /\ Forall (fun kc => length (snd kc) = length raw_df) (columns census_df).
Proof.
  intros rates lengths_of_stay dispositions_df admits_df.
  assert (Hdisp : Forall (fun kc => length (snd kc) = length raw_df)
                         (columns dispositions_df)).
  { subst dispositions_df rates. unfold build_dispositions_df. cbn [columns].
    rewrite Forall_map, Forall_map. apply Forall_forall.
    intros [key d] _. simpl. now rewrite !length_map. }
  assert (Hadm : Forall (fun kc => length (snd kc) = length raw_df)
                        (columns admits_df)).
  { subst admits_df. unfold build_admits_df. cbn [columns].
    rewrite Forall_map. eapply Forall_impl; [| exact Hdisp].
    intros [key col] Hc. simpl in *. now rewrite admits_column_length. }
  assert (Hkeys : map fst (columns admits_df) = map fst dispositions).
  { subst admits_df dispositions_df rates.
    unfold build_admits_df, build_dispositions_df. cbn [columns].
    rewrite !map_map. apply map_ext. now intros [key d]. }
  assert (Hlos : map fst lengths_of_stay = map fst dispositions).
  { subst lengths_of_stay. rewrite map_map. apply map_ext. now intros [key d]. }
  destruct (mapM_census_shape admits_df (length raw_df) Hadm lengths_of_stay)
    as (cols & Hcols & Hfst & Hall).
  { intros k Hk. now rewrite Hkeys, <- Hlos. }
  exists (mkFrame (day admits_df) (date admits_df) cols).
  split; [unfold build_census_df; now rewrite Hcols |].
  split; [reflexivity |]. split; [reflexivity |]. split; [reflexivity |].
  split.
  { cbn [date]. subst admits_df dispositions_df.
    unfold build_admits_df, build_dispositions_df. cbn [date].
    now rewrite map_map. }
  split; [cbn [columns]; now rewrite Hfst |].
  repeat split; assumption.
Qed.

(** ** Admissions summed up again *)






(** ** The day the census is closest to the known count *)

(** X10: the position [get_argmin_ds] returns is the first row of the
    [hospitalized] census column whose squared distance to
    [current_hospitalized] is minimal among the valid rows; it is -1 when
    the column has no valid row. *)
Theorem get_argmin_ds_closest
  (census_df : Frame) (current_hospitalized : Q) (z : Z) :
  get_argmin_ds census_df current_hospitalized = Ok z ->
  exists col,
    lookup "hospitalized"%string (columns census_df) = Some col
    /\ ((z = (-1)%Z /\ forall i x, nth_error col i <> Some (Some x))
        \/ exists j y,
             z = Z.of_nat j
             /\ (j < length col)%nat
             /\ nth_error col j = Some (Some y)
             /\ forall i x,
                  nth_error col i = Some (Some x) ->
                  (y - current_hospitalized) ^ 2 <= (x - current_hospitalized) ^ 2
                  /\ ((i < j)%nat ->
                      (y - current_hospitalized) ^ 2
                      < (x - current_hospitalized) ^ 2)).
Proof.
  unfold get_argmin_ds, getattr_hospitalized. intros Hg.
  destruct (lookup "hospitalized"%string (columns census_df)) as [col |];
    [| discriminate].
  cbn [bind] in Hg. exists col. split; [reflexivity |].
  unfold cell in *.
  set (g := fun c : option Q =>
              option_map (fun x => (x - current_hospitalized) ^ 2) c) in *.
  destruct (argmin_spec _ _ Hg) as [(Hz & Hnan) | (j & y' & Hz & Hj & Hy & Hmin)].
  - left. split; [exact Hz |]. intros i x Hx.
    apply (Hnan i ((x - current_hospitalized) ^ 2)).
    rewrite nth_error_map, Hx. reflexivity.
  - right. rewrite length_map in Hj.
    rewrite nth_error_map in Hy.
    destruct (nth_error col j) as [[y |] |] eqn:Ej; try discriminate.
    injection Hy as <-.
    exists j, y.
    split; [exact Hz |]. split; [exact Hj |]. split; [exact Ej |].
    intros i x Hx.
    apply (Hmin i ((x - current_hospitalized) ^ 2)).
    rewrite nth_error_map, Hx. reflexivity.
Qed.

Lemma get_argmin_ds_closest_witness :
  let census_df :=
    mkFrame [0; 1; 2; 3]%Z [100; 101; 102; 103]%Z
            [("hospitalized"%string, [None; Some 4; Some 9; Some 12])] in
  exists col,
    lookup "hospitalized"%string (columns census_df) = Some col
    /\ ((2%Z = (-1)%Z /\ forall i x, nth_error col i <> Some (Some x))
        \/ exists j y,
             2%Z = Z.of_nat j
             /\ (j < length col)%nat
             /\ nth_error col j = Some (Some y)
             /\ forall i x,
                  nth_error col i = Some (Some x) ->
                  (y - 10) ^ 2 <= (x - 10) ^ 2
                  /\ ((i < j)%nat -> (y - 10) ^ 2 < (x - 10) ^ 2)).
Proof.
  intros census_df.
  apply (get_argmin_ds_closest census_df 10 2). reflexivity.
Defined.

(** ** The constructor: errors before and inside the branches *)

Lemma fdiv_zero (a b : Q) : b == 0 -> fdiv a b = Raise ZeroDivisionError.
Proof. intros Hb. unfold fdiv. now rewrite (Qeq_eq_bool _ _ Hb). Qed.

Lemma is_ok_bind_left {A B : Type} (c : result A) (k : A -> result B) :
  is_ok c = false -> is_ok (bind c k) = false.
Proof. now destruct c. Qed.

Lemma is_ok_bind_right {A B : Type} (c : result A) (k : A -> result B) :
  (forall a, is_ok (k a) = false) -> is_ok (bind c k) = false.
Proof. intros Hk. destruct c; simpl; auto. Qed.

Lemma loc_inv {A : Type} (l : list A) (z : Z) (a : A) :
  loc l z = Ok a -> (0 <= z)%Z /\ nth_error l (Z.to_nat z) = Some a.
Proof.
  unfold loc. destruct (Z.ltb_spec z 0); [discriminate |].
  destruct (nth_error l (Z.to_nat z)); [| discriminate].
  intros [= ->]. split; [lia | reflexivity].
Qed.

Lemma np_index_inv {A : Type} (l : list A) (z : Z) (a : A) :
  np_index l z = Ok a ->
  exists j, nth_error l j = Some a /\ ((0 <= z)%Z -> j = Z.to_nat z).
Proof.
  unfold np_index.
  destruct (Z.ltb_spec z 0) as [Hneg | Hpos].
  - destruct (_ <? 0)%Z; [discriminate |].
    destruct (nth_error l _) eqn:E; [| discriminate].
    intros [= ->]. eexists. split; [exact E | lia].
  - destruct (Z.ltb_spec z 0); [lia |].
    destruct (nth_error l (Z.to_nat z)) eqn:E; [| discriminate].
    intros [= ->]. eexists. split; [exact E | reflexivity].
Qed.

Section ConstructorErrors.
Context `{Platform}.

(** X11: with a market share of zero, or a hospitalization rate of zero,
    construction fails with [ZeroDivisionError] on lines 57-59, whatever
    the other parameters are: the division comes before the check of the
    two calibration fields. *)
Theorem init_zero_market_share_or_rate (p : Parameters.t) :
  Parameters.market_share p == 0
  \/ Disposition.rate (Parameters.hospitalized p) == 0 ->
  init p = Raise ZeroDivisionError.
Proof.
  intros Hz. unfold init.
  assert (Hd : derive p = Raise ZeroDivisionError).
  { unfold derive. unfold fdiv at 1.
    destruct (Qeq_bool (Parameters.market_share p) 0) eqn:Ems; [reflexivity |].
    cbn [bind]. destruct Hz as [Hms | Hrate].
    - rewrite (Qeq_eq_bool _ _ Hms) in Ems. discriminate.
    - now rewrite (fdiv_zero _ _ Hrate). }
  now rewrite Hd.
Qed.

(** A projection anchored at a negative [i_day] never completes: the
    look-up of [raw_df.infected.loc[i_day]] has no such label. *)
Lemma run_projection_negative_i_day
  (rates : list (string * Q)) (los : list (string * nat))
  (s i beta gamma : Q) (i_day : Z) (p : Parameters.t) :
  (i_day < 0)%Z ->
  is_ok (run_projection rates los s i beta gamma i_day p) = false.
Proof.
  intros Hneg. unfold run_projection.
  apply is_ok_bind_right. intros raw_df.
  apply is_ok_bind_right. intros census_df.
  apply is_ok_bind_left. unfold loc.
  destruct (Z.ltb_spec i_day 0); [reflexivity | lia].
Qed.

(** X12: when the date of the first hospitalization lies after the current
    date (and no doubling time is given), construction fails: the anchor
    day is negative and the first projection of the calibration loop cannot
    complete. *)
Theorem init_first_hospitalized_in_future (p : Parameters.t) (d : Z) :
  Parameters.date_first_hospitalized p = Some d ->
  Parameters.doubling_time p = None ->
  (Parameters.current_date p < d)%Z ->
  is_ok (init p) = false.
Proof.
  intros Hdate Hdt Hfuture. unfold init. rewrite Hdate, Hdt.
  apply is_ok_bind_right. intros l.
  unfold date_first_hospitalized_branch.
  apply is_ok_bind_left. unfold calibration_losses.
  change dts with (1 + inject_Z (Z.of_nat 0) * ((15 - 1) / (inject_Z 29 - 1))
                   :: tl dts).
  cbn [mapM]. apply is_ok_bind_left.
  unfold candidate_loss.
  apply is_ok_bind_right. intros self_beta.
  apply is_ok_bind_left.
  apply run_projection_negative_i_day. lia.
Qed.

(** What a successful projection pins down: the anchor day is not
    negative, the trajectory has [n_days + i_day + 1] rows, and its row at
    position [i_day] is day 0 and carries [current_infected]. *)
Lemma run_projection_anchor
  (rates : list (string * Q)) (los : list (string * nat))
  (s i beta gamma : Q) (i_day : Z) (p : Parameters.t) (proj : Projection.t) :
  run_projection rates los s i beta gamma i_day p = Ok proj ->
  (0 <= i_day)%Z
  /\ length (Projection.raw_df proj)
     = S (Z.to_nat (Parameters.n_days p + i_day))
  /\ Forall (fun row =>
               row_susceptible row + row_infected row + row_recovered row
               == s + i + Parameters.recovered p)
            (Projection.raw_df proj)
  /\ exists row,
       nth_error (Projection.raw_df proj) (Z.to_nat i_day) = Some row
       /\ row_day row = 0%Z
       /\ row_infected row = Projection.current_infected proj.
Proof.
  unfold run_projection. intros Hr.
  invert_bind Hr as raw_df Hraw. invert_bind Hr as census_df Hcensus.
  invert_bind Hr as ci Hci. injection Hr as <-. cbn.
  unfold sim_sir_df, gen_sir in Hraw.
  destruct (gen_sir_loop_days _ _ _ _ _ _ _ _ _ Hraw) as [Hlen Hdays].
  pose proof (gen_sir_loop_sums _ _ _ _ _ _ _ _ _ Hraw (Qeq_refl _)) as Hsums.
  apply loc_inv in Hci. destruct Hci as [Hpos Hnth].
  rewrite nth_error_map in Hnth.
  destruct (nth_error raw_df (Z.to_nat i_day)) as [row |] eqn:Erow;
    [| discriminate].
  injection Hnth as <-.
  repeat split; try assumption.
  exists row. repeat split.
  rewrite (Hdays _ _ Erow). lia.
Qed.
End ConstructorErrors.

Lemma init_zero_market_share_or_rate_witness :
  init (Parameters.mk 1000 2 0 (Some 10) 100 (Some 99%Z) (Some 4) (3 # 10) 14 60 0
          example_hospitalized
          [("hospitalized"%string, example_hospitalized)])
  = Raise ZeroDivisionError.
Proof.
  apply init_zero_market_share_or_rate. left. reflexivity.
Defined.

Lemma init_first_hospitalized_in_future_witness :
  is_ok (init (Parameters.mk 1000 2 (1 # 2) (Some 10) 100 (Some 103%Z) None
                 (3 # 10) 14 60 0
                 example_hospitalized
                 [("hospitalized"%string, example_hospitalized)]))
  = false.
Proof.
  apply (init_first_hospitalized_in_future _ 103%Z); [reflexivity | reflexivity |].
  simpl. lia.
Defined.

(** ** The constructed model *)

Section ConstructedModel.
Context `{Platform}.

Lemma doubling_time_branch_state
  (l : Locals.t) (p : Parameters.t) (m : SimSirModel.t) (p' : Parameters.t) :
  doubling_time_branch l p = Ok (m, p') ->
  p' = p
  /\ SimSirModel.n_days_since m = Some (SimSirModel.i_day m)
  /\ SimSirModel.r_t m = Locals.r_t l
  /\ SimSirModel.r_naught m = Locals.r_naught l
  /\ SimSirModel.sim_sir_w_date_df m
     = build_sim_sir_w_date_df (Projection.raw_df (SimSirModel.projection m))
                               (Parameters.current_date p)
  /\ (exists beta,
        run_projection (Locals.rates l) (Locals.lengths_of_stay l)
                       (Locals.susceptible l) (Locals.self_infected l)
                       beta (Locals.gamma l) (SimSirModel.i_day m) p
        = Ok (SimSirModel.projection m))
  /\ np_index (map row_infected (Projection.raw_df (SimSirModel.projection m)))
              (SimSirModel.i_day m) = Ok (SimSirModel.infected m)
  /\ np_index (map row_susceptible (Projection.raw_df (SimSirModel.projection m)))
              (SimSirModel.i_day m) = Ok (SimSirModel.susceptible m)
  /\ np_index (map row_recovered (Projection.raw_df (SimSirModel.projection m)))
              (SimSirModel.i_day m) = Ok (SimSirModel.recovered m).
Proof.
  unfold doubling_time_branch. intros Hb.
  invert_bind Hb as self_beta Hbeta. invert_bind Hb as proj1 Hrun1.
  invert_bind Hb as i_day Harg. invert_bind Hb as proj2 Hrun2.
  invert_bind Hb as inf Hinf. invert_bind Hb as sus Hsus.
  invert_bind Hb as rec Hrec.
  injection Hb as <- <-. cbn.
  repeat split; try assumption. now exists self_beta.
Qed.

Lemma date_first_hospitalized_branch_state
  (l : Locals.t) (p : Parameters.t) (n_days_since : Z)
  (m : SimSirModel.t) (p' : Parameters.t) :
  date_first_hospitalized_branch l p n_days_since = Ok (m, p') ->
  SimSirModel.i_day m = n_days_since
  /\ SimSirModel.n_days_since m = Some n_days_since
  /\ SimSirModel.r_t m = Locals.r_t l
  /\ SimSirModel.r_naught m = Locals.r_naught l
  /\ SimSirModel.susceptible m = Locals.susceptible l
  /\ SimSirModel.infected m = Locals.self_infected l
  /\ SimSirModel.recovered m = Parameters.recovered p
  /\ SimSirModel.sim_sir_w_date_df m
     = build_sim_sir_w_date_df (Projection.raw_df (SimSirModel.projection m))
                               (Parameters.current_date p)
  /\ (exists beta dt,
        p' = Parameters.set_doubling_time p (Some dt)
        /\ (exists k, np_index dts k = Ok dt)
        /\ run_projection (Locals.rates l) (Locals.lengths_of_stay l)
                          (Locals.susceptible l) (Locals.self_infected l)
                          beta (Locals.gamma l) n_days_since p'
           = Ok (SimSirModel.projection m)).
Proof.
  unfold date_first_hospitalized_branch. intros Hb.
  invert_bind Hb as losses Hlosses. invert_bind Hb as k Harg.
  invert_bind Hb as dt Hdt. invert_bind Hb as self_beta Hbeta.
  invert_bind Hb as proj Hrun.
  injection Hb as <- <-. cbn.
  repeat split; try assumption.
  exists self_beta, dt. repeat split; eauto.
Qed.

(** X13: on every constructed model the effective reproduction number is
    the basic one after distancing:
    [r_t = r_naught * (1 - relative_contact_rate)], the relation the
    comment on lines 81-82 simplifies. *)
Theorem r_t_is_discounted_r_naught
  (p : Parameters.t) (m : SimSirModel.t) (p' : Parameters.t) :
  init p = Ok (m, p') ->
  SimSirModel.r_t m
  == SimSirModel.r_naught m * (1 - Parameters.relative_contact_rate p).
Proof.
  intros Hi. apply init_inv in Hi. destruct Hi as (l & Hd & Hbr).
  assert (Hm : SimSirModel.r_t m = Locals.r_t l
               /\ SimSirModel.r_naught m = Locals.r_naught l).
  { destruct Hbr as [(_ & _ & Hb) | (d & _ & _ & Hb)].
    - apply doubling_time_branch_state in Hb. tauto.
    - apply date_first_hospitalized_branch_state in Hb. tauto. }
  destruct Hm as [-> ->].
  apply derive_inv in Hd.
  destruct Hd as (_ & _ & _ & _ & Hbeta & Hrt & Hr0 & _ & _ & Hs & Hg).
  rewrite Hrt, Hr0, Hbeta. field. split; assumption.
Qed.

(** X14: on every constructed model the anchor day [i_day] is not
    negative, the raw trajectory has [n_days + i_day + 1] rows, and its
    row at position [i_day] is day 0: it carries [current_infected], and
    the dated trajectory gives it the current date. *)
Theorem model_anchor_row
  (p : Parameters.t) (m : SimSirModel.t) (p' : Parameters.t) :
  init p = Ok (m, p') ->
  (0 <= SimSirModel.i_day m)%Z
  /\ length (Projection.raw_df (SimSirModel.projection m))
     = S (Z.to_nat (Parameters.n_days p + SimSirModel.i_day m))
  /\ exists row,
       nth_error (Projection.raw_df (SimSirModel.projection m))
                 (Z.to_nat (SimSirModel.i_day m)) = Some row
       /\ row_day row = 0%Z
       /\ row_infected row
          = Projection.current_infected (SimSirModel.projection m)
       /\ nth_error (SimSirModel.sim_sir_w_date_df m)
                    (Z.to_nat (SimSirModel.i_day m))
          = Some (Parameters.current_date p, row).
Proof.
  intros Hi. apply init_inv in Hi. destruct Hi as (l & Hd & Hbr).
  assert (Hrun : exists beta q,
             Parameters.n_days q = Parameters.n_days p
             /\ run_projection (Locals.rates l) (Locals.lengths_of_stay l)
                               (Locals.susceptible l) (Locals.self_infected l)
                               beta (Locals.gamma l) (SimSirModel.i_day m) q
                = Ok (SimSirModel.projection m)
             /\ SimSirModel.sim_sir_w_date_df m
                = build_sim_sir_w_date_df
                    (Projection.raw_df (SimSirModel.projection m))
                    (Parameters.current_date p)).
  { destruct Hbr as [(_ & _ & Hb) | (d & _ & _ & Hb)].
    - apply doubling_time_branch_state in Hb.
      destruct Hb as (_ & _ & _ & _ & Hdated & (beta & Hrun) & _).
      exists beta, p. auto.
    - apply date_first_hospitalized_branch_state in Hb.
      destruct Hb as (Hday & _ & _ & _ & _ & _ & _ & Hdated
                      & beta & dt & -> & _ & Hrun).
      exists beta, (Parameters.set_doubling_time p (Some dt)).
      rewrite Hday. auto. }
  destruct Hrun as (beta & q & Hn & Hrun & Hdated).
  apply run_projection_anchor in Hrun.
  destruct Hrun as (Hpos & Hlen & _ & row & Hrow & Hday & Hinf).
  rewrite Hn in Hlen.
  split; [exact Hpos |]. split; [exact Hlen |].
  exists row. repeat split; try assumption.
  rewrite Hdated. unfold build_sim_sir_w_date_df.
  rewrite nth_error_map, Hrow. cbn [option_map]. now rewrite Hday.
Qed.

(** X15: the constructor leaves [p] as it is in doubling-time mode; in
    date mode it changes [p.doubling_time], and nothing else, to the fitted
    value, which lies between 1 and 15. *)
Theorem init_parameters_after
  (p : Parameters.t) (m : SimSirModel.t) (p' : Parameters.t) :
  init p = Ok (m, p') ->
  match Parameters.date_first_hospitalized p with
  | None => p' = p
  | Some _ =>
      exists dt,
        p' = Parameters.set_doubling_time p (Some dt) /\ 1 <= dt /\ dt <= 15
  end.
Proof.
  intros Hi. apply init_inv in Hi. destruct Hi as (l & Hd & Hbr).
  destruct Hbr as [(-> & _ & Hb) | (d & -> & _ & Hb)].
  - now apply doubling_time_branch_state in Hb.
  - apply date_first_hospitalized_branch_state in Hb.
    destruct Hb as (_ & _ & _ & _ & _ & _ & _ & _
                    & beta & dt & -> & (k & Hk) & _).
    exists dt. split; [reflexivity |].
    apply np_index_inv in Hk. destruct Hk as (j & Hj & _).
    assert (Hlt : (j < 29)%nat).
    { rewrite <- dts_length. apply nth_error_Some. congruence. }
    apply dts_nth in Hj.
    assert (H0 : 0 <= inject_Z (Z.of_nat j))
      by (rewrite <- (Zle_Qle 0); lia).
    assert (H28 : inject_Z (Z.of_nat j) <= 28)
      by (rewrite <- (Zle_Qle _ 28); lia).
    rewrite Hj. split; lra.
Qed.

(** X16: the compartments a constructed model exposes add up to the total
    the simulation started from,
    (population - current_hospitalized / market_share / rate)
    + 1 / rate / market_share + recovered: in date mode they are the
    initial state itself, in doubling-time mode the row of the final
    trajectory at the adopted anchor day. *)
Theorem model_state_total
  (p : Parameters.t) (m : SimSirModel.t) (p' : Parameters.t) :
  init p = Ok (m, p') ->
  SimSirModel.susceptible m + SimSirModel.infected m + SimSirModel.recovered m
  == (Parameters.population p
      - Parameters.current_hospitalized p / Parameters.market_share p
        / Disposition.rate (Parameters.hospitalized p))
     + 1 / Disposition.rate (Parameters.hospitalized p)
       / Parameters.market_share p
     + Parameters.recovered p.
Proof.
  intros Hi. apply init_inv in Hi. destruct Hi as (l & Hd & Hbr).
  apply derive_inv in Hd.
  destruct Hd as (Hinf & Hsus & _ & _ & _ & _ & _ & _ & Hself & _).
  rewrite Hinf in Hsus. rewrite <- Hsus, <- Hself.
  destruct Hbr as [(_ & _ & Hb) | (d & _ & _ & Hb)].
  - apply doubling_time_branch_state in Hb.
    destruct Hb as (_ & _ & _ & _ & _ & (beta & Hrun) & Hi & Hs & Hr).
    apply run_projection_anchor in Hrun.
    destruct Hrun as (Hpos & _ & Hsums & _).
    apply np_index_inv in Hi, Hs, Hr.
    destruct Hi as (ji & Hi & Eji). destruct Hs as (js & Hs & Ejs).
    destruct Hr as (jr & Hr & Ejr).
    rewrite (Eji Hpos) in Hi. rewrite (Ejs Hpos) in Hs. rewrite (Ejr Hpos) in Hr.
    rewrite nth_error_map in Hi, Hs, Hr.
    destruct (nth_error (Projection.raw_df (SimSirModel.projection m))
                        (Z.to_nat (SimSirModel.i_day m))) as [row |] eqn:Erow;
      [| discriminate].
    injection Hi as <-. injection Hs as <-. injection Hr as <-.
    rewrite Forall_forall in Hsums.
    exact (Hsums row (nth_error_In _ _ Erow)).
  - apply date_first_hospitalized_branch_state in Hb.
    destruct Hb as (_ & _ & _ & _ & -> & -> & -> & _).
    reflexivity.
Qed.
End ConstructedModel.

Lemma r_t_is_discounted_r_naught_witness :
  exists m p',
    init example_doubling = Ok (m, p')
    /\ SimSirModel.r_t m == SimSirModel.r_naught m * (1 - (3 # 10)).
Proof.
  destruct (init example_doubling) as [[m p'] | e] eqn:E.
  - exists m, p'. split; [reflexivity |].
    exact (r_t_is_discounted_r_naught example_doubling m p' E).
  - pose proof init_example_doubling_ok as Hok.
    rewrite E in Hok. discriminate.
Defined.

Lemma model_anchor_row_witness :
  exists m p',
    init example_doubling = Ok (m, p')
    /\ (0 <= SimSirModel.i_day m)%Z
    /\ length (Projection.raw_df (SimSirModel.projection m))
       = S (Z.to_nat (2 + SimSirModel.i_day m))
    /\ exists row,
         nth_error (Projection.raw_df (SimSirModel.projection m))
                   (Z.to_nat (SimSirModel.i_day m)) = Some row
         /\ row_day row = 0%Z
         /\ row_infected row
            = Projection.current_infected (SimSirModel.projection m)
         /\ nth_error (SimSirModel.sim_sir_w_date_df m)
                      (Z.to_nat (SimSirModel.i_day m))
            = Some (100%Z, row).
Proof.
  destruct (init example_doubling) as [[m p'] | e] eqn:E.
  - exists m, p'. split; [reflexivity |].
    exact (model_anchor_row example_doubling m p' E).
  - pose proof init_example_doubling_ok as Hok.
    rewrite E in Hok. discriminate.
Defined.

Lemma init_parameters_after_witness :
  exists m p',
    init example_date = Ok (m, p')
    /\ exists dt,
         p' = Parameters.set_doubling_time example_date (Some dt)
         /\ 1 <= dt /\ dt <= 15.
Proof.
  destruct (init example_date) as [[m p'] | e] eqn:E.
  - exists m, p'. split; [reflexivity |].
    exact (init_parameters_after example_date m p' E).
  - pose proof init_example_date_ok as Hok.
    rewrite E in Hok. discriminate.
Defined.

Lemma model_state_total_witness :
  exists m p',
    init example_doubling = Ok (m, p')
    /\ SimSirModel.susceptible m + SimSirModel.infected m + SimSirModel.recovered m
       == (1000 - 2 / (1 # 2) / (1 # 40)) + 1 / (1 # 40) / (1 # 2) + 0.
Proof.
  destruct (init example_doubling) as [[m p'] | e] eqn:E.
  - exists m, p'. split; [reflexivity |].
    exact (model_state_total example_doubling m p' E).
  - pose proof init_example_doubling_ok as Hok.
    rewrite E in Hok. discriminate.
Defined.

(** X17: what the logarithm of line 84 is applied to.  Whenever the
    derivation of the rates completes, beta * susceptible - gamma + 1
    equals 1 + growth rate - relative_contact_rate * (growth rate + gamma):
    the susceptible population cancels, and without distancing the
    argument is one plus the growth rate that [get_growth_rate] derived
    from the doubling time. *)
Theorem log2_argument_value `{Platform} (p : Parameters.t) (l : Locals.t) :
  derive p = Ok l ->
  log2_argument l
  == 1 + get_growth_rate (Parameters.doubling_time p)
     - Parameters.relative_contact_rate p
       * (get_growth_rate (Parameters.doubling_time p)
          + 1 / Parameters.infectious_days p).
Proof.
  intros Hd. apply derive_inv in Hd.
  destruct Hd as (_ & _ & Hg & Hgamma & Hbeta & _ & _ & _ & _ & Hs & _).
  unfold log2_argument. rewrite Hbeta, Hg, <- Hgamma.
  field_simplify_eq; [ring | exact Hs].
Qed.

Lemma log2_argument_value_witness :
  exists l,
    derive example_doubling = Ok l
    /\ log2_argument l
       == 1 + get_growth_rate (Some 1) - (3 # 10) * (get_growth_rate (Some 1) + 1 / 14).
Proof.
  destruct (derive example_doubling) as [l | e] eqn:E.
  - exists l. split; [reflexivity |].
    exact (log2_argument_value example_doubling l E).
  - vm_compute in E. discriminate.
Defined.

(** * C6: the census of any admission table *)

Lemma cumsum_from_nth (col : list cell) :
  forall (acc : Q) (k : nat),
    nth_error (cumsum_from acc col) k
    = match nth_error col k with
      | Some (Some _) => Some (Some (fold_left add_cell (firstn (S k) col) acc))
      | Some None => Some None
      | None => None
      end.
Proof.
  induction col as [| c t IH]; intros acc k.
  - now destruct k.
  - destruct k as [| k].
    + now destruct c.
    + destruct c as [x |]; simpl; rewrite IH; reflexivity.
Qed.

Lemma cumsum_nth (col : list cell) (k : nat) :
  nth_error (cumsum col) k
  = match nth_error col k with
    | Some (Some _) => Some (Some (running_cells col k))
    | Some None => Some None
    | None => None
    end.
Proof. unfold cumsum, running_cells. apply cumsum_from_nth. Qed.

(** Row by row, the census column of any admission column. *)
Lemma census_column_rows (col : list cell) (L : nat) :
  (1 <= L)%nat ->
  census_column L col
  = map (fun k => if (k <? length col - L)%nat then census_row col L k else None)
        (seq 0 (length col)).
Proof.
  intros HL.
  assert (Hcs : length (cumsum col) = length col)
    by (unfold cumsum; apply cumsum_from_length).
  unfold census_column, series_sub. rewrite map_map.
  rewrite (iloc_to_minus_length L _ HL), fillna_length, shift_length, Hcs.
  replace (Nat.max (length col - L) (length col)) with (length col) by lia.
  apply map_ext_in. intros k Hk. apply in_seq in Hk.
  rewrite (iloc_to_minus_nth L _ k HL), Hcs.
  unfold fillna. rewrite nth_error_map.
  rewrite shift_nth by (rewrite Hcs; lia).
  destruct (Nat.ltb_spec k (length col - L)) as [Hlt | Hge]; [| reflexivity].
  rewrite cumsum_nth. unfold census_row.
  destruct (nth_error col k) as [[a |] |] eqn:Ek.
  - destruct (Nat.ltb_spec k L) as [HkL | HkL]; [reflexivity |].
    rewrite cumsum_nth.
    destruct (nth_error col (k - L)) as [[b |] |] eqn:Eb; try reflexivity.
    exfalso. apply nth_error_None in Eb. lia.
  - destruct (Nat.ltb_spec k L) as [HkL | HkL]; [reflexivity |].
    destruct (nth_error (cumsum col) (k - L)) as [[b |] |]; reflexivity.
  - exfalso. apply nth_error_None in Ek. lia.
Qed.

Lemma valid_rows_cons (c : cell) (t : list cell) :
  valid_rows (c :: t) = ((if is_defined c then 1 else 0) + valid_rows t)%nat.
Proof. unfold valid_rows. simpl. now destruct (is_defined c). Qed.

Lemma valid_rows_firstn (col : list cell) :
  forall a,
    valid_rows (firstn a col)
    = length (filter (fun k => is_defined (nth k col None))
                     (seq 0 (Nat.min a (length col)))).
Proof.
  induction col as [| c t IH]; intros a.
  - rewrite firstn_nil, Nat.min_0_r. reflexivity.
  - destruct a as [| a]; [reflexivity |].
    cbn [firstn length]. rewrite valid_rows_cons, IH.
    rewrite <- Nat.succ_min_distr, <- cons_seq, <- seq_shift.
    cbn [filter nth].
    destruct (is_defined c); cbn [length];
      rewrite filter_map_swap, length_map; reflexivity.
Qed.

Lemma filter_none {A : Type} (f : A -> bool) (l : list A) :
  (forall x, In x l -> f x = false) -> filter f l = [].
Proof.
  induction l as [| x t IH]; intros Hf; [reflexivity |].
  simpl. rewrite (Hf x (or_introl eq_refl)). apply IH.
  intros y Hy. apply Hf. now right.
Qed.

Lemma count_below (d : nat -> bool) (a n : nat) :
  (a <= n)%nat ->
  length (filter (fun k => if (k <? a)%nat then d k else false) (seq 0 n))
  = length (filter d (seq 0 a)).
Proof.
  intros Ha. replace n with (a + (n - a))%nat by lia.
  rewrite seq_app, filter_app, length_app.
  rewrite (filter_none _ (seq (0 + a) (n - a))).
  - cbn [length]. rewrite Nat.add_0_r. f_equal.
    apply filter_ext_in. intros k Hk. apply in_seq in Hk.
    destruct (Nat.ltb_spec k a); [reflexivity | lia].
  - intros k Hk. apply in_seq in Hk.
    destruct (Nat.ltb_spec k a); [lia | reflexivity].
Qed.

(** The valid census rows are the defined admissions among the first
    [M - L] rows. *)
Lemma valid_rows_census_any (col : list cell) (L : nat) :
  (1 <= L)%nat ->
  valid_rows (census_column L col) = valid_rows (firstn (length col - L) col).
Proof.
  intros HL. rewrite (census_column_rows col L HL).
  rewrite valid_rows_firstn.
  replace (Nat.min (length col - L) (length col)) with (length col - L)%nat by lia.
  unfold valid_rows. rewrite filter_map_swap, length_map.
  rewrite <- (count_below _ (length col - L) (length col)) by lia.
  f_equal. apply filter_ext_in. intros k Hk. apply in_seq in Hk.
  destruct (Nat.ltb_spec k (length col - L)) as [_ | _]; [| reflexivity].
  unfold census_row, cell in *.
  destruct (nth_error col k) as [[x |] |] eqn:Ek.
  - now rewrite (nth_error_nth _ _ None Ek).
  - now rewrite (nth_error_nth _ _ None Ek).
  - apply nth_error_None in Ek. lia.
Qed.

Lemma valid_rows_map_Some (xs : list Q) : valid_rows (map Some xs) = length xs.
Proof.
  induction xs as [| x t IH]; [reflexivity |].
  cbn [map]. rewrite valid_rows_cons, IH. reflexivity.
Qed.

Lemma valid_rows_firstn_defined (xs : list Q) (a : nat) :
  (a <= length xs)%nat -> valid_rows (firstn a (map Some xs)) = a.
Proof.
  intros Ha. rewrite firstn_map, valid_rows_map_Some, length_firstn. lia.
Qed.

Lemma valid_rows_firstn_admits (xs : list Q) (L : nat) :
  (1 <= L)%nat ->
  valid_rows (firstn (length (None :: map Some xs ++ [None]) - L)
                     (None :: map Some xs ++ [None]))
  = (length (None :: map Some xs ++ [None]) - 1 - L)%nat.
Proof.
  intros HL. cbn [length]. rewrite length_app, length_map. cbn [length].
  destruct (S (length xs + 1) - L)%nat as [| a] eqn:Ea.
  - unfold valid_rows. simpl. lia.
  - cbn [firstn]. rewrite valid_rows_cons. cbn [is_defined].
    rewrite firstn_app, length_map.
    replace (a - length xs)%nat with 0%nat by lia.
    cbn [firstn]. rewrite app_nil_r.
    rewrite valid_rows_firstn_defined by lia. lia.
Qed.

(** C6 (amended): for every admission column of [M] rows, NaN rows
    allowed, and every length of stay [L >= 1], [build_census_df] succeeds
    and the census column has [M] rows.  A census row is valid exactly
    when it is one of the first [M - L] rows and the admission of its day
    is defined, and then it equals the running total of the defined
    admissions up to that day minus the running total [L] days earlier
    (zero before the start of the data and where that earlier admission
    is NaN), rounded up.  So the number of valid rows is the number of
    defined admissions among the first [M - L] rows: [M - L] when every
    admission is defined, and [M - 1 - L] on a column that
    [build_admits_df] produces, whose first and last rows are NaN; for
    [L >= M] there is no valid row and no error. *)
Theorem census_rows_of_any_admission_table
  (admits_df : Frame) (lengths_of_stay : list (string * nat))
  (key : string) (L : nat) (col : list cell) :
  (forall k l, In (k, l) lengths_of_stay -> lookup k (columns admits_df) <> None) ->
  lookup key lengths_of_stay = Some L ->
  lookup key (columns admits_df) = Some col ->
  (1 <= L)%nat ->
  exists census_df c,
    build_census_df admits_df lengths_of_stay = Ok census_df
    /\ lookup key (columns census_df) = Some c
    /\ length c = length col
    /\ (forall k, (k < length col)%nat ->
                  nth_error c k
                  = Some (if (k <? length col - L)%nat
                          then census_row col L k else None))
    /\ valid_rows c = valid_rows (firstn (length col - L) col)
    /\ (forall xs, col = map Some xs ->
                   valid_rows c = (length col - L)%nat)
    /\ (forall xs, col = None :: map Some xs ++ [None] ->
                   valid_rows c = (length col - 1 - L)%nat).
Proof.
  intros Hkeys HL Hcol Hpos.
  destruct (lookup_mapM_census admits_df lengths_of_stay Hkeys)
    as (cols & Hcols & Hlook).
  exists (mkFrame (day admits_df) (date admits_df) cols), (census_column L col).
  split; [unfold build_census_df; rewrite Hcols; reflexivity |].
  split; [exact (Hlook key L col HL Hcol) |].
  split; [apply census_column_length |].
  split.
  { intros k Hk. rewrite (census_column_rows col L Hpos).
    rewrite nth_error_map, nth_error_seq.
    destruct (Nat.ltb_spec k (length col)) as [_ | Hge]; [reflexivity | lia]. }
  split; [exact (valid_rows_census_any col L Hpos) |].
  split.
  - intros xs ->. rewrite (valid_rows_census_any _ L Hpos).
    rewrite length_map. apply valid_rows_firstn_defined. lia.
  - intros xs ->. rewrite (valid_rows_census_any _ L Hpos).
    exact (valid_rows_firstn_admits xs L Hpos).
Qed.

Lemma census_rows_of_any_admission_table_witness :
  let admits_df :=
    build_admits_df
      (mkFrame [0; 1; 2; 3]%Z [100; 101; 102; 103]%Z
               [("hospitalized"%string, map Some [1; 3; 6; 10])]) in
  let lengths_of_stay := [("hospitalized"%string, 1%nat)] in
  let col := None :: map Some [3 - 1; 6 - 3] ++ [None] in
  exists census_df c,
    build_census_df admits_df lengths_of_stay = Ok census_df
    /\ lookup "hospitalized"%string (columns census_df) = Some c
    /\ length c = length col
    /\ (forall k, (k < length col)%nat ->
                  nth_error c k
                  = Some (if (k <? length col - 1)%nat
                          then census_row col 1 k else None))
    /\ valid_rows c = valid_rows (firstn (length col - 1) col)
    /\ (forall xs, col = map Some xs ->
                   valid_rows c = (length col - 1)%nat)
    /\ (forall xs, col = None :: map Some xs ++ [None] ->
                   valid_rows c = (length col - 1 - 1)%nat).
Proof.
  intros admits_df lengths_of_stay col.
  apply (census_rows_of_any_admission_table admits_df lengths_of_stay
           "hospitalized"%string 1%nat col).
  - intros k l [[= <- <-] | []]. discriminate.
  - reflexivity.
  - reflexivity.
  - lia.
Defined.

(** C6 as stated fails on the admission table the program itself builds.
    From the dispositions 1, 3, 6, 10 [build_admits_df] makes the [M = 4]
    rows NaN, 2, 3, NaN; with [L = 1] the census is NaN, 2, 3, NaN: two
    valid rows, not [M - L = 3]. *)
Lemma census_length_counterexample :
  let admits_df :=
    build_admits_df
      (mkFrame [0; 1; 2; 3]%Z [100; 101; 102; 103]%Z
               [("hospitalized"%string, [Some 1; Some 3; Some 6; Some 10])]) in
  exists census_df col,
    lookup "hospitalized"%string (columns admits_df)
    = Some [None; Some (3 - 1); Some (6 - 3); None]
    /\ length (day admits_df) = 4%nat
    /\ build_census_df admits_df [("hospitalized"%string, 1%nat)] = Ok census_df
    /\ lookup "hospitalized"%string (columns census_df) = Some col
    /\ col = [None; Some 2; Some 3; None]
    /\ valid_rows col = 2%nat
    /\ valid_rows col <> (4 - 1)%nat.
Proof.
  intros admits_df.
  eexists. exists [None; Some 2; Some 3; None].
  split; [reflexivity |]. split; [reflexivity |].
  split; [reflexivity |]. split; [reflexivity |].
  split; [reflexivity |]. split; [reflexivity |].
  discriminate.
Qed.
